(** * my-chatbot: the history reconciler, persona switching and error
      classification of [src/main.py], embedded and verified.

    Python [str] values are sequences of Unicode code points; they are
    modelled as [list N].  The built-in string methods the program calls
    ([in], [startswith], [replace], [split], [strip], [lower]) are
    written out as functions on such lists.  The file system, the
    console and the model service are explicit: a [World] holds the
    files and the text printed so far, a [Stream] is what the model
    service delivers to one request. *)

From Stdlib Require Import NArith List Lia Bool.
From stdpp Require Import base gmap list strings.
Import ListNotations.

Abbreviation pystr := (list N).

(** ** String literals *)

(** Source literals are UTF-8 text; [py] decodes the bytes of a Rocq
    string literal into the code points Python sees. *)
Fixpoint utf8_decode (need : nat) (acc : N) (bs : list N) : pystr :=
  match bs with
  | [] => []
  | b :: bs' =>
      match need with
      | O =>
          if (b <? 128)%N then b :: utf8_decode 0 0%N bs'
          else if (b <? 224)%N then utf8_decode 1 (N.land b 31) bs'
          else if (b <? 240)%N then utf8_decode 2 (N.land b 15) bs'
          else utf8_decode 3 (N.land b 7) bs'
      | S O => (acc * 64 + N.land b 63)%N :: utf8_decode 0 0%N bs'
      | S k => utf8_decode k (acc * 64 + N.land b 63)%N bs'
      end
  end.

Definition py (s : string) : pystr :=
  utf8_decode 0 0%N (map Ascii.N_of_ascii (String.list_ascii_of_string s)).
Arguments py : simpl never.

(** ** Python string methods *)

Module Str.

(** [s.startswith(p)] *)
Fixpoint startswith (s p : pystr) {struct p} : bool :=
  match p, s with
  | [], _ => true
  | _ :: _, [] => false
  | a :: p', b :: s' => (a =? b)%N && startswith s' p'
  end.

(** [needle in s] *)
Fixpoint contains (s needle : pystr) : bool :=
  startswith s needle ||
  match s with
  | [] => false
  | _ :: s' => contains s' needle
  end.

(** The scan of [s.replace(old, new)] for a non-empty [old]: [skip] counts
    the characters of a matched occurrence still to be passed over. *)
Fixpoint replace_scan (old new : pystr) (skip : nat) (s : pystr) : pystr :=
  match s with
  | [] => []
  | c :: s' =>
      match skip with
      | S k => replace_scan old new k s'
      | O =>
          if startswith s old
          then new ++ replace_scan old new (length old - 1) s'
          else c :: replace_scan old new 0 s'
      end
  end.

(** [s.replace(old, new)]: occurrences are found left to right and do not
    overlap; an empty [old] matches before every character and at the end. *)
Definition replace (s old new : pystr) : pystr :=
  match old with
  | [] => new ++ flat_map (fun c => c :: new) s
  | _ :: _ => replace_scan old new 0 s
  end.

(** [s.split(sep)] for a one-character separator. *)
Fixpoint split (sep : N) (s : pystr) : list pystr :=
  match s with
  | [] => [[]]
  | c :: s' =>
      if (c =? sep)%N then [] :: split sep s'
      else match split sep s' with
           | l :: ls => (c :: l) :: ls
           | [] => [[c]]
           end
  end.

(** [c.isspace()]: the code points Python treats as whitespace. *)
Definition isspace (c : N) : bool :=
  ((9 <=? c) && (c <=? 13) || (28 <=? c) && (c <=? 32) ||
   (c =? 133) || (c =? 160) || (c =? 5760) ||
   (8192 <=? c) && (c <=? 8202) || (c =? 8232) || (c =? 8233) ||
   (c =? 8239) || (c =? 8287) || (c =? 12288))%N.

Fixpoint lstrip (s : pystr) : pystr :=
  match s with
  | c :: s' => if isspace c then lstrip s' else s
  | [] => []
  end.

Definition rstrip (s : pystr) : pystr := rev (lstrip (rev s)).

(** [s.strip()] *)
Definition strip (s : pystr) : pystr := rstrip (lstrip s).

(** [s.lower()], one code point at a time.  The ASCII capitals move to
    their small letters; U+0130 and U+212A (the Kelvin sign) are the only
    code points beyond ASCII whose lower case contains an ASCII letter.
    Every other code point beyond ASCII lowers to code points beyond
    ASCII, which no ASCII needle can match, and is left in place. *)
Definition lower_char (c : N) : pystr :=
  if ((65 <=? c) && (c <=? 90))%N then [(c + 32)%N]
  else if (c =? 304)%N then [105; 775]%N
  else if (c =? 8490)%N then [107]%N
  else [c].

Definition lower (s : pystr) : pystr := flat_map lower_char s.

(** [str(n)] for a non-negative integer. *)
Fixpoint digits (d : Decimal.uint) : pystr :=
  match d with
  | Decimal.Nil => []
  | Decimal.D0 d' => 48%N :: digits d'
  | Decimal.D1 d' => 49%N :: digits d'
  | Decimal.D2 d' => 50%N :: digits d'
  | Decimal.D3 d' => 51%N :: digits d'
  | Decimal.D4 d' => 52%N :: digits d'
  | Decimal.D5 d' => 53%N :: digits d'
  | Decimal.D6 d' => 54%N :: digits d'
  | Decimal.D7 d' => 55%N :: digits d'
  | Decimal.D8 d' => 56%N :: digits d'
  | Decimal.D9 d' => 57%N :: digits d'
  end.

Definition of_N (n : N) : pystr := digits (N.to_uint n).

(** [str(n).zfill(w)], as the [%m], [%d], [%H], ... fields of [strftime]. *)
Definition zfill (w : nat) (s : pystr) : pystr :=
  repeat 48%N (w - length s) ++ s.

End Str.

(** ** Writing text as UTF-8 *)

Module Utf8.

(** A surrogate code point: alone in a text it cannot be encoded. *)
Definition is_surrogate (c : N) : bool := ((55296 <=? c) && (c <=? 57343))%N.

(** [data.encode('utf-8')] does not raise. *)
Definition encodable (data : pystr) : bool := forallb (fun c => negb (is_surrogate c)) data.

(** The length of the run of surrogates at the front of a text. *)
Fixpoint run_length (s : pystr) : nat :=
  match s with
  | c :: s' => if is_surrogate c then S (run_length s') else O
  | [] => O
  end.

(** The first run of surrogates: where it starts, its first character and
    its length. *)
Fixpoint first_run (pos : nat) (s : pystr) : option (nat * N * nat) :=
  match s with
  | [] => None
  | c :: s' =>
      if is_surrogate c then Some (pos, c, S (run_length s'))
      else first_run (S pos) s'
  end.

Definition hex_digit (n : N) : N := if (n <? 10)%N then (48 + n)%N else (87 + n)%N.

(** [%04x] of a code point below 65536. *)
Definition hex4 (c : N) : pystr :=
  [hex_digit (c / 4096 mod 16); hex_digit (c / 256 mod 16);
   hex_digit (c / 16 mod 16); hex_digit (c mod 16)]%N.

(** [str(e)] of the [UnicodeEncodeError] that encoding [data] raises. *)
Definition encode_error (data : pystr) : pystr :=
  match first_run 0 data with
  | Some (start, c, 1%nat) =>
      py "'utf-8' codec can't encode character '\u" ++ hex4 c ++
      py "' in position " ++ Str.of_N (N.of_nat start) ++
      py ": surrogates not allowed"
  | Some (start, _, len) =>
      py "'utf-8' codec can't encode characters in position " ++
      Str.of_N (N.of_nat start) ++ py "-" ++
      Str.of_N (N.of_nat (start + len - 1)) ++
      py ": surrogates not allowed"
  | None => []
  end.

End Utf8.

(** ** Error classification of [get_response] *)

Inductive ErrorKind := AuthError | QuotaExceeded | RateLimited | TransportError.

Definition API_KEY : pystr := Eval vm_compute in py "API_KEY".
Definition quota : pystr := Eval vm_compute in py "quota".
Definition rate : pystr := Eval vm_compute in py "rate".

(** The [if]/[elif] chain of the [except] branch, on [str(e)]. *)
Definition classify (e : pystr) : ErrorKind :=
  if Str.contains e API_KEY then AuthError
  else if Str.contains (Str.lower e) quota then QuotaExceeded
  else if Str.contains (Str.lower e) rate then RateLimited
  else TransportError.

(** The specification's order, for comparison with [classify]: quota, then
    rate, then the credential test. *)
Definition classify_spec (e : pystr) : ErrorKind :=
  if Str.contains (Str.lower e) quota then QuotaExceeded
  else if Str.contains (Str.lower e) rate then RateLimited
  else if Str.contains e API_KEY then AuthError
  else TransportError.

Definition error_msg (k : ErrorKind) (e : pystr) : pystr :=
  match k with
  | AuthError => py "❌ API密钥错误，请检查GEMINI_API_KEY环境变量"
  | QuotaExceeded => py "❌ API配额已用完，请稍后再试"
  | RateLimited => py "❌ 请求频率过高，请稍后再试"
  | TransportError => py "❌ API请求失败: " ++ e
  end.

(** ** Data model *)

(** [types.Part]: the text of a part ([None] for a part without text) and
    its [thought] flag. *)
Record Part := { part_text : option pystr; part_thought : bool }.

(** [types.Part.from_text(text=text)] *)
Definition Part_from_text (text : pystr) : Part :=
  {| part_text := Some text; part_thought := false |}.

(** [types.Content]: one turn of the conversation. *)
Record Content := { role : pystr; parts : list Part }.

Record ThinkingConfig := { thinking_budget : N; include_thoughts : bool }.

Record GenerateContentConfig := {
  temperature : N;
  thinking_config : ThinkingConfig;
  media_resolution : pystr;
  system_instruction : pystr
}.

(** The fields of a [ChatBot] object (the service client is opaque). *)
#[projections(primitive)]
Record ChatBot := {
  model : pystr;
  conversation_history : list Content;
  current_prompt : pystr;
  chat_log_file : pystr;
  config : GenerateContentConfig
}.

(** What [datetime.now()] returns. *)
Record datetime := {
  year : N; month : N; day : N; hour : N; minute : N; second : N
}.

(** One streamed chunk: [chunk.candidates[0].content.parts] and the value
    of the property [chunk.text]. *)
Record Chunk := { chunk_parts : list Part; chunk_text : option pystr }.

(** What iterating [generate_content_stream(...)] does: it yields chunks
    and then ends, or raises an exception whose [str(e)] is [e].  An
    exception raised while a chunk is taken apart counts as raised at that
    point of the stream. *)
Inductive Stream :=
| Done
| Yield (chunk : Chunk) (rest : Stream)
| Fail (e : pystr).

(** The model service, as one request sees it. *)
Abbreviation Service := (pystr -> list Content -> GenerateContentConfig -> Stream).

(** The outcome of a statement that may raise. *)
Inductive result (A : Type) :=
| Ok (a : A)
| Raise (e : pystr).
Arguments Ok {A} a.
Arguments Raise {A} e.

(** The process environment: the text files by path, the paths on which
    opening for reading or for writing raises (with the description of the
    exception), and what has been printed.  The files are opened with
    [encoding='utf-8'] and its strict error handling; the standard output
    is the environment's and is taken to accept every text. *)
#[projections(primitive)]
Record World := {
  files : gmap pystr pystr;
  read_error : pystr -> option pystr;
  write_error : pystr -> option pystr;
  stdout : pystr
}.

#[projections(primitive)]
Record State := { self : ChatBot; world : World }.

(** ** Constants of the source text *)

Definition NL : pystr := [10%N].
Definition USER : pystr := Eval vm_compute in py "user".
Definition MODEL : pystr := Eval vm_compute in py "model".
Definition USER_MARKER : pystr := Eval vm_compute in py "**😊 你:**".
Definition AI_MARKER : pystr := Eval vm_compute in py "**🤖 AI:**".
Definition USER_DISPLAY : pystr := Eval vm_compute in py "😊 你".
Definition AI_DISPLAY : pystr := Eval vm_compute in py "🤖 AI".
Definition TIME_LABEL : pystr := Eval vm_compute in py "*时间: ".
Definition LAST_PROMPT : pystr := Eval vm_compute in py ".last_prompt".
Definition GEMINI : pystr := Eval vm_compute in py "gemini-2.5-pro".
Definition MEDIUM : pystr := Eval vm_compute in py "MEDIA_RESOLUTION_MEDIUM".

(** Python truth of a string that may be [None]. *)
Definition truthy (o : option pystr) : bool :=
  match o with
  | Some (_ :: _) => true
  | _ => false
  end.

(** ** Files *)

(** Reading in text mode turns a carriage return, alone or before a line
    feed, into a line feed. *)
Fixpoint universal_newlines (s : pystr) : pystr :=
  match s with
  | [] => []
  | c :: s' =>
      if (c =? 13)%N then
        10%N :: match s' with
                | d :: s'' =>
                    if (d =? 10)%N then universal_newlines s''
                    else universal_newlines s'
                | [] => []
                end
      else c :: universal_newlines s'
  end.

(** [os.path.exists(path)] *)
Definition path_exists (w : World) (path : pystr) : bool :=
  match files w !! path with
  | Some _ => true
  | None => false
  end.

(** [open(path, 'r', encoding='utf-8')] followed by [f.read()].  The
    program tests [os.path.exists] before it opens a file for reading, so
    it does not reach the last case; the text given there is [str] of the
    exception for a path that [repr] shows unchanged between single
    quotes. *)
Definition read_text (w : World) (path : pystr) : result pystr :=
  match read_error w path with
  | Some e => Raise e
  | None =>
      match files w !! path with
      | Some data => Ok (universal_newlines data)
      | None => Raise (py "[Errno 2] No such file or directory: '" ++ path ++ py "'")
      end
  end.

Definition set_files (w : World) (fs : gmap pystr pystr) : World :=
  {| files := fs; read_error := read_error w;
     write_error := write_error w; stdout := stdout w |}.

(** [open(path, 'w', encoding='utf-8')] followed by [f.write(data)]: the
    environment after it and the description of the exception raised, if
    any.  When opening raises, nothing changes.  Opening empties the file;
    [f.write] encodes the text before anything is written, and raises on a
    lone surrogate, which leaves the file empty. *)
Definition write_text (w : World) (path data : pystr) : World * option pystr :=
  match write_error w path with
  | Some e => (w, Some e)
  | None =>
      if Utf8.encodable data
      then (set_files w (<[path := data]> (files w)), None)
      else (set_files w (<[path := []]> (files w)), Some (Utf8.encode_error data))
  end.

(** [open(path, 'a', encoding='utf-8')] followed by [f.write(data)].
    Opening creates the file when it is absent; a text that cannot be
    encoded is not written. *)
Definition append_text (w : World) (path data : pystr) : World * option pystr :=
  match write_error w path with
  | Some e => (w, Some e)
  | None =>
      if Utf8.encodable data
      then (set_files w (<[path := default [] (files w !! path) ++ data]> (files w)),
            None)
      else (set_files w (<[path := default [] (files w !! path)]> (files w)),
            Some (Utf8.encode_error data))
  end.

(** ** The state monad of the methods *)

Definition M (A : Type) : Type := State -> A * State.

#[global] Instance M_ret : MRet M := fun A (a : A) s => (a, s).
#[global] Instance M_bind : MBind M :=
  fun A B (f : A -> M B) (m : M A) s => let '(a, s') := m s in f a s'.

Definition get_self : M ChatBot := fun s => (self s, s).
Definition get_world : M World := fun s => (world s, s).
Definition put_self (b : ChatBot) : M unit :=
  fun s => (tt, {| self := b; world := world s |}).
Definition put_world (w : World) : M unit :=
  fun s => (tt, {| self := self s; world := w |}).

(** [print(text, end="")] *)
Definition print_end (text : pystr) : M unit :=
  fun s => (tt, {| self := self s;
                   world := {| files := files (world s);
                               read_error := read_error (world s);
                               write_error := write_error (world s);
                               stdout := stdout (world s) ++ text |} |}).

(** [print(text)] *)
Definition print (text : pystr) : M unit := print_end (text ++ NL).

(** A [for] loop over a list. *)
Fixpoint for_each {A : Type} (l : list A) (body : A -> M unit) : M unit :=
  match l with
  | [] => mret tt
  | x :: l' => body x ;; for_each l' body
  end.

(** [dict] lookups on the persona table, kept in declaration order. *)
Fixpoint dict_get (d : list (pystr * pystr)) (k : pystr) : option pystr :=
  match d with
  | [] => None
  | (k', v) :: d' => if decide (k' = k) then Some v else dict_get d' k
  end.

Definition dict_has (d : list (pystr * pystr)) (k : pystr) : bool :=
  match dict_get d k with
  | Some _ => true
  | None => false
  end.

(** [now.strftime("%Y-%m-%d %H:%M:%S")] *)
Definition strftime (now : datetime) : pystr :=
  Str.zfill 4 (Str.of_N (year now)) ++ py "-" ++
  Str.zfill 2 (Str.of_N (month now)) ++ py "-" ++
  Str.zfill 2 (Str.of_N (day now)) ++ py " " ++
  Str.zfill 2 (Str.of_N (hour now)) ++ py ":" ++
  Str.zfill 2 (Str.of_N (minute now)) ++ py ":" ++
  Str.zfill 2 (Str.of_N (second now)).

(** ** The methods of [ChatBot] *)

Section ChatBot.

(** [prompts.py] is not part of the sources at hand: the persona table and
    the default persona name it exports are parameters. *)
Variable SYSTEM_PROMPTS : list (pystr * pystr).
Variable DEFAULT_PROMPT : pystr.

Definition make_config (instruction : pystr) : GenerateContentConfig :=
  {| temperature := 2;
     thinking_config := {| thinking_budget := 2000; include_thoughts := true |};
     media_resolution := MEDIUM;
     system_instruction := instruction |}.

Definition log_file_name (prompt_name : pystr) : pystr :=
  py "chat_" ++ prompt_name ++ py ".md".

(** Assignments to the attributes of [self]. *)
Definition set_conversation_history (h : list Content) : M unit :=
  b ← get_self;
  put_self {| model := model b; conversation_history := h;
              current_prompt := current_prompt b;
              chat_log_file := chat_log_file b; config := config b |}.

Definition set_current_prompt (name : pystr) : M unit :=
  b ← get_self;
  put_self {| model := model b;
              conversation_history := conversation_history b;
              current_prompt := name;
              chat_log_file := chat_log_file b; config := config b |}.

Definition set_chat_log_file (path : pystr) : M unit :=
  b ← get_self;
  put_self {| model := model b;
              conversation_history := conversation_history b;
              current_prompt := current_prompt b;
              chat_log_file := path; config := config b |}.

Definition set_config (c : GenerateContentConfig) : M unit :=
  b ← get_self;
  put_self {| model := model b;
              conversation_history := conversation_history b;
              current_prompt := current_prompt b;
              chat_log_file := chat_log_file b; config := c |}.

Definition add_message (role text : pystr) : M unit :=
  b ← get_self;
  set_conversation_history
    (conversation_history b ++ [{| role := role; parts := [Part_from_text text] |}]).

(** [_load_last_prompt]: [Some] is the [return] inside the [try] block,
    [None] falls through to the last line, and so does any exception. *)
Definition _load_last_prompt (w : World) : result pystr :=
  let attempt : result (option pystr) :=
    if path_exists w LAST_PROMPT then
      match read_text w LAST_PROMPT with
      | Ok data =>
          let last_prompt := Str.strip data in
          if dict_has SYSTEM_PROMPTS last_prompt then Ok (Some last_prompt)
          else Ok None
      | Raise e => Raise e
      end
    else Ok None in
  match attempt with
  | Ok (Some last_prompt) => Ok last_prompt
  | Ok None => Ok DEFAULT_PROMPT
  | Raise _ => Ok DEFAULT_PROMPT
  end.

Definition _save_last_prompt : M unit :=
  b ← get_self; w ← get_world;
  let '(w', raised) := write_text w LAST_PROMPT (current_prompt b) in
  put_world w' ;;
  match raised with
  | None => mret tt
  | Some e => print (py "⚠️ 保存提示词状态失败: " ++ e)
  end.

(** The body of the [for line in lines] loop of [_load_chat_history]. *)
Definition load_line (line : pystr) : M unit :=
  if Str.startswith line USER_MARKER then
    let text := Str.strip (Str.replace line USER_MARKER []) in
    if truthy (Some text) then add_message USER text else mret tt
  else if Str.startswith line AI_MARKER then
    let text := Str.strip (Str.replace line AI_MARKER []) in
    if truthy (Some text) then add_message MODEL text else mret tt
  else mret tt.

Definition _load_chat_history : M unit :=
  b ← get_self; w ← get_world;
  if path_exists w (chat_log_file b) then
    match read_text w (chat_log_file b) with
    | Ok content =>
        let lines := Str.split 10 content in
        for_each lines load_line
    | Raise e => print (py "⚠️ 加载历史对话失败: " ++ e)
    end
  else mret tt.

Definition _save_to_log (now : datetime) (role message : pystr) : M unit :=
  let timestamp := strftime now in
  let role_display := if decide (role = USER) then USER_DISPLAY else AI_DISPLAY in
  let log_entry :=
    NL ++ py "**" ++ role_display ++ py ":** " ++ message ++ NL ++
    TIME_LABEL ++ timestamp ++ py "*" ++ NL in
  b ← get_self; w ← get_world;
  let '(w', raised) := append_text w (chat_log_file b) log_entry in
  put_world w' ;;
  match raised with
  | None => mret tt
  | Some e => print (py "⚠️ 保存对话记录失败: " ++ e)
  end.

(** The inner loop of [get_response] over the parts of one chunk. *)
Definition show_thoughts (ps : list Part) : M unit :=
  for_each ps (fun part =>
    if negb (truthy (part_text part)) then mret tt
    else if part_thought part
         then print (NL ++ py "🧠 [推理过程]: " ++ default [] (part_text part))
         else mret tt).

(** The outer loop of [get_response]: [Ok] carries [response_text] when
    the stream ends, [Raise] the exception that ended it. *)
Fixpoint consume (st : Stream) (response_text : pystr) : M (result pystr) :=
  match st with
  | Done => mret (Ok response_text)
  | Fail e => mret (Raise e)
  | Yield chunk rest =>
      show_thoughts (chunk_parts chunk) ;;
      if truthy (chunk_text chunk) then
        print_end (default [] (chunk_text chunk)) ;;
        consume rest (response_text ++ default [] (chunk_text chunk))
      else consume rest response_text
  end.

(** [get_response]; [now_user] and [now_model] are the clock readings of
    the two calls of [_save_to_log]. *)
Definition get_response (generate_content_stream : Service)
    (now_user now_model : datetime) (user_input : pystr) : M pystr :=
  add_message USER user_input ;;
  _save_to_log now_user USER user_input ;;
  b ← get_self;
  r ← consume (generate_content_stream (model b) (conversation_history b) (config b)) [];
  match r with
  | Ok response_text =>
      (if truthy (Some response_text) then
         add_message MODEL response_text ;;
         _save_to_log now_model MODEL response_text
       else mret tt) ;;
      mret response_text
  | Raise e =>
      let error_msg := error_msg (classify e) e in
      print error_msg ;;
      mret error_msg
  end.

Definition list_prompts : M unit :=
  print (NL ++ py "📋 可用的系统提示词：") ;;
  b ← get_self;
  for_each SYSTEM_PROMPTS (fun '(key, value) =>
    let status := if decide (key = current_prompt b) then py " (当前)" else [] in
    let preview := Str.replace (take 30 value) NL (py " ") ++ py "..." in
    print (py "   " ++ key ++ status ++ py " - " ++ preview)) ;;
  print [].

Definition switch_prompt (prompt_name : pystr) : M unit :=
  match dict_get SYSTEM_PROMPTS prompt_name with
  | Some instruction =>
      set_current_prompt prompt_name ;;
      set_chat_log_file (log_file_name prompt_name) ;;
      _save_last_prompt ;;
      set_config (make_config instruction) ;;
      set_conversation_history [] ;;
      _load_chat_history ;;
      print (NL ++ py "✅ 已切换到 '" ++ prompt_name ++ py "' 提示词") ;;
      b ← get_self;
      print (py "📁 对话记录文件: " ++ chat_log_file b) ;;
      let history_count := length (conversation_history b) in
      if (0 <? history_count)%nat
      then print (py "📚 已加载 " ++ Str.of_N (N.of_nat history_count) ++
                  py " 条历史记录" ++ NL)
      else print (py "📚 暂无历史记录" ++ NL)
  | None =>
      print (py "❌ 提示词 '" ++ prompt_name ++ py "' 不存在") ;;
      list_prompts
  end.

Definition clear_history : M unit :=
  set_conversation_history [] ;;
  print (NL ++ py "✨ 对话历史已清空" ++ NL).

(** [ChatBot()]: the constructor raises [KeyError(name)] when the loaded
    persona name is not in the table; [Raise] carries the key itself, the
    argument of the exception (nothing takes its [str]).  [config] is
    assigned last; until then the record holds the configuration of an empty
    instruction, which [_load_chat_history] does not read. *)
Definition __init__ (w : World) : result State :=
  match _load_last_prompt w with
  | Raise e => Raise e
  | Ok name =>
      let b := {| model := GEMINI; conversation_history := [];
                  current_prompt := name;
                  chat_log_file := log_file_name name;
                  config := make_config [] |} in
      let s := snd (_load_chat_history {| self := b; world := w |}) in
      match dict_get SYSTEM_PROMPTS name with
      | Some instruction =>
          Ok (snd (set_config (make_config instruction) s))
      | None => Raise name
      end
  end.

End ChatBot.

(** ** Vocabulary of the statements *)

(** A fresh object, before any persona is bound. *)
Definition initial_bot : ChatBot :=
  {| model := GEMINI; conversation_history := []; current_prompt := [];
     chat_log_file := []; config := make_config [] |}.

Definition no_errors (p : pystr) : option pystr := None.

Definition empty_world : World :=
  {| files := ∅; read_error := no_errors; write_error := no_errors; stdout := [] |}.

(** [reconcile]: the turns the loop of [_load_chat_history] adds to an
    empty history for a log text. *)
Definition reconcile (content : pystr) : list Content :=
  conversation_history (self (snd (
    for_each (Str.split 10 content) load_line
      {| self := initial_bot; world := empty_world |}))).

(** [appendTurn]: the pair of calls [get_response] makes for each turn. *)
Definition appendTurn (now : datetime) (role text : pystr) : M unit :=
  add_message role text ;;
  _save_to_log now role text.

Definition appendTurns (turns : list (datetime * pystr * pystr)) : M unit :=
  for_each turns (fun '(now, role, text) => appendTurn now role text).

(** The turn [add_message role text] appends. *)
Definition turn (role text : pystr) : Content :=
  {| role := role; parts := [Part_from_text text] |}.

(** The turn a marker line stands for, none when its text is empty. *)
Definition turn_of_text (role text : pystr) : list Content :=
  if truthy (Some text) then [turn role text] else [].

(** What one line of a log contributes to the history. *)
Definition line_turns (line : pystr) : list Content :=
  if Str.startswith line USER_MARKER then
    turn_of_text USER (Str.strip (Str.replace line USER_MARKER []))
  else if Str.startswith line AI_MARKER then
    turn_of_text MODEL (Str.strip (Str.replace line AI_MARKER []))
  else [].

(** The turns that can be read back from the log at [path]. *)
Definition log_turns (w : World) (path : pystr) : list Content :=
  if path_exists w path then
    match read_text w path with
    | Ok content => reconcile content
    | Raise _ => []
    end
  else [].

(** The marker [_save_to_log] writes for a role. *)
Definition marker_of (role : pystr) : pystr :=
  if decide (role = USER) then USER_MARKER else AI_MARKER.

(** The record [_save_to_log] appends. *)
Definition log_entry (now : datetime) (role message : pystr) : pystr :=
  NL ++ marker_of role ++ py " " ++ message ++ NL ++
  TIME_LABEL ++ strftime now ++ py "*" ++ NL.

(** A text that survives the way through the log: one line, not empty,
    no white space at either end, free of the marker of its role, and
    without a lone surrogate, so that it can be written. *)
Definition plain_text (role text : pystr) : Prop :=
  Str.contains text [10%N] = false /\
  Str.contains text [13%N] = false /\
  text <> [] /\
  Str.strip text = text /\
  Str.contains text (marker_of role) = false /\
  Utf8.encodable text = true.

(** A turn to append: the clock reading, the role and the text. *)
Definition entry_of (t : datetime * pystr * pystr) : pystr :=
  let '(now, role, text) := t in log_entry now role text.

Definition turn_of (t : datetime * pystr * pystr) : Content :=
  let '(_, role, text) := t in turn role text.

Definition plain_turn (t : datetime * pystr * pystr) : Prop :=
  let '(_, role, text) := t in
  (role = USER \/ role = MODEL) /\ plain_text role text.

(** A line of white space only, and a line as [_save_to_log] writes it
    for the time. *)
Definition blank_line (line : pystr) : bool := forallb Str.isspace line.
Definition timestamp_line (line : pystr) : bool := Str.startswith line TIME_LABEL.

(** How a stream ends, and the answer text it carries. *)
Fixpoint failure (st : Stream) : option pystr :=
  match st with
  | Done => None
  | Fail e => Some e
  | Yield _ rest => failure rest
  end.

Fixpoint answer (st : Stream) : pystr :=
  match st with
  | Done => []
  | Fail _ => []
  | Yield chunk rest =>
      (if truthy (chunk_text chunk) then default [] (chunk_text chunk) else [])
      ++ answer rest
  end.

(** Data of the examples. *)
Definition ex_now : datetime :=
  {| year := 2024; month := 1; day := 1; hour := 0; minute := 0; second := 1 |}.

Definition ex_prompts : list (pystr * pystr) :=
  [(py "default", py "You are a helpful assistant.");
   (py "coder", py "You write code.")].

Definition ex_default : pystr := py "default".

Definition ex_state : State :=
  {| self := {| model := GEMINI; conversation_history := [];
                current_prompt := py "default";
                chat_log_file := log_file_name (py "default");
                config := make_config (py "You are a helpful assistant.") |};
     world := empty_world |}.

(** A service that answers in two lines, and the state after one turn
    with it. *)
Definition ex_answer : pystr := py "line one" ++ NL ++ py "line two".

Definition ex_service : Service :=
  fun _ _ _ =>
    Yield {| chunk_parts := [Part_from_text ex_answer];
             chunk_text := Some ex_answer |} Done.

Definition ex_chatting : State :=
  snd (get_response ex_service ex_now ex_now (py "hi") ex_state).

(** ** States the methods lead to *)

Definition with_history (b : ChatBot) (h : list Content) : ChatBot :=
  {| model := model b; conversation_history := h;
     current_prompt := current_prompt b;
     chat_log_file := chat_log_file b; config := config b |}.

Definition add_turns (ts : list Content) (s : State) : State :=
  {| self := with_history (self s) (conversation_history (self s) ++ ts);
     world := world s |}.

(** A later state of the environment: other files, more output. *)
Definition evolved (fs : gmap pystr pystr) (out : pystr) (s : State) : State :=
  {| self := self s;
     world := {| files := fs;
                 read_error := read_error (world s);
                 write_error := write_error (world s);
                 stdout := stdout (world s) ++ out |} |}.

(** The request [get_response] sends: the history with the user's turn. *)
Definition request (generate_content_stream : Service) (user_input : pystr)
    (s : State) : Stream :=
  generate_content_stream (model (self s))
    (conversation_history (self s) ++ [turn USER user_input]) (config (self s)).

(** The object after a switch to a persona of the table. *)
Definition switched (name instruction : pystr) (s : State) : ChatBot :=
  {| model := model (self s);
     conversation_history := log_turns (world s) (log_file_name name);
     current_prompt := name;
     chat_log_file := log_file_name name;
     config := make_config instruction |}.

(** The line [list_prompts] prints for one persona. *)
Definition prompt_line (b : ChatBot) (kv : pystr * pystr) : pystr :=
  py "   " ++ fst kv ++
  (if decide (fst kv = current_prompt b) then py " (当前)" else []) ++
  py " - " ++ (Str.replace (take 30 (snd kv)) NL (py " ") ++ py "...") ++ NL.

(** A character that does not end a line. *)
Definition line_char (c : N) : Prop := c <> 10%N /\ c <> 13%N.

(** The two lines of a log record. *)
Definition text_line (role message : pystr) : pystr :=
  marker_of role ++ 32%N :: message.

Definition time_line (now : datetime) : pystr :=
  TIME_LABEL ++ strftime now ++ [42%N].

(** ** The command loop and the entry point *)

(** What one call of [input()] does: it returns a line, the user presses
    Ctrl+C while it waits, the input is at its end, or it raises another
    exception with [str(e)] equal to [e], after or before showing its
    prompt ([prompted]).  A
    [Step] adds what the environment does if the line starts a turn: the
    behaviour of the model service, the two clock readings of that turn,
    and whether the user presses Ctrl+C while the answer streams:
    [Some k] when that happens after [k] chunks have arrived and before
    what follows them does.  The steps of a run are followed by the end of
    the input. *)
Inductive Typed :=
| Line (text : pystr)
| KeyboardInterrupt
| EOFError
| InputError (prompted : bool) (e : pystr).

Record Step := {
  typed : Typed;
  service : Service;
  clock_user : datetime;
  clock_model : datetime;
  interrupt : option nat
}.

(** The first [k] chunks of a stream, if it has as many. *)
Fixpoint cut (k : nat) (st : Stream) : option Stream :=
  match k with
  | O => Some Done
  | S k' =>
      match st with
      | Yield chunk rest =>
          match cut k' rest with
          | Some shown => Some (Yield chunk shown)
          | None => None
          end
      | _ => None
      end
  end.

(** [x in words] for a list of strings. *)
Fixpoint member (x : pystr) (words : list pystr) : bool :=
  match words with
  | [] => false
  | w :: words' => if decide (x = w) then true else member x words'
  end.

Definition QUIT_WORDS : list pystr :=
  Eval vm_compute in [py "quit"; py "exit"; py "bye"; py "退出"; py "再见"].
Definition CLEAR_WORDS : list pystr :=
  Eval vm_compute in [py "clear"; py "清空"].
Definition PROMPT_PREFIX : pystr := Eval vm_compute in py "prompt:".
Definition LIST : pystr := Eval vm_compute in py "list".
Definition INPUT_PROMPT : pystr := Eval vm_compute in NL ++ py "😊 你: ".

Section Driver.

Variable SYSTEM_PROMPTS : list (pystr * pystr).
Variable DEFAULT_PROMPT : pystr.

Definition show_welcome : M unit :=
  print (py "🤖 智能聊天机器人已启动！") ;;
  print (repeat 61%N 50) ;;
  b ← get_self; w ← get_world;
  (if path_exists w (chat_log_file b) then
     let history_count := length (conversation_history b) in
     print (py "📚 已加载 " ++ Str.of_N (N.of_nat history_count) ++
            py " 条历史对话记录")
   else mret tt) ;;
  print (py "🎯 当前提示词: " ++ current_prompt b) ;;
  print (py "💡 输入 'quit', 'exit' 或 'bye' 退出") ;;
  print (py "💡 输入 'clear' 清空对话历史") ;;
  print (py "💡 输入 'prompt:提示词名' 切换提示词") ;;
  print (py "💡 输入 'prompt:list' 查看所有提示词") ;;
  print (py "💡 对话记录将自动保存到 " ++ chat_log_file b) ;;
  print (repeat 61%N 50).

(** [get_response] as far as it gets when Ctrl+C arrives while it waits
    for the stream, after the chunks [shown] have been taken from it: the
    user's turn is in the history and in the log, the chunks have been
    shown, and [KeyboardInterrupt], which [except Exception] does not
    catch, leaves the method. *)
Definition get_response_interrupted (now_user : datetime) (user_input : pystr)
    (shown : Stream) : M unit :=
  add_message USER user_input ;;
  _save_to_log now_user USER user_input ;;
  consume shown [] ;;
  mret tt.

(** One pass through the body of [while True]: [false] is [break], [true]
    is [continue] or the end of the body.  [input()] shows its prompt and
    then returns or raises; an exception other than Ctrl+C and the end of
    the input is reported by the last handler and the loop goes on.  Ctrl+C
    is taken at [input()] and while the answer streams.  The words the
    lowered input is compared with are ASCII without i and k, or have no
    case, so [Str.lower] decides these tests as [str.lower] does. *)
Definition iteration (st : Step) : M bool :=
  match typed st with
  | InputError prompted e =>
      (if prompted then print_end INPUT_PROMPT else mret tt) ;;
      print (NL ++ py "❌ 发生错误: " ++ e) ;;
      mret true
  | KeyboardInterrupt =>
      print_end INPUT_PROMPT ;;
      _save_last_prompt ;;
      print (NL ++ NL ++ py "👋 检测到 Ctrl+C，正在退出...") ;;
      mret false
  | EOFError =>
      print_end INPUT_PROMPT ;;
      _save_last_prompt ;;
      print (NL ++ NL ++ py "👋 再见！") ;;
      mret false
  | Line text =>
      print_end INPUT_PROMPT ;;
      let user_input := Str.strip text in
      if member (Str.lower user_input) QUIT_WORDS then
        _save_last_prompt ;;
        print (NL ++ py "👋 再见！感谢使用聊天机器人！") ;;
        mret false
      else if member (Str.lower user_input) CLEAR_WORDS then
        clear_history ;;
        mret true
      else if Str.startswith (Str.lower user_input) PROMPT_PREFIX then
        let prompt_name := Str.strip (drop 7 user_input) in
        (if decide (prompt_name = LIST) then list_prompts SYSTEM_PROMPTS
         else if truthy (Some prompt_name) then
           switch_prompt SYSTEM_PROMPTS prompt_name
         else
           print (py "❌ 请提供提示词名称，格式：prompt:提示词名") ;;
           list_prompts SYSTEM_PROMPTS) ;;
        mret true
      else if negb (truthy (Some user_input)) then
        print (py "请输入一些内容...") ;;
        mret true
      else
        print_end (NL ++ py "🤖 AI: ") ;;
        b ← get_self;
        match
          match interrupt st with
          | Some k =>
              cut k (service st (model b)
                       (conversation_history b ++ [turn USER user_input]) (config b))
          | None => None
          end
        with
        | Some shown =>
            get_response_interrupted (clock_user st) user_input shown ;;
            _save_last_prompt ;;
            print (NL ++ NL ++ py "👋 检测到 Ctrl+C，正在退出...") ;;
            mret false
        | None =>
            get_response (service st) (clock_user st) (clock_model st) user_input ;;
            print [] ;;
            mret true
        end
  end.

(** The loop of [run] over what is typed; when nothing is left to read,
    [input()] raises [EOFError], as in the step [EOFError]. *)
Fixpoint run_loop (steps : list Step) : M unit :=
  match steps with
  | [] =>
      print_end INPUT_PROMPT ;;
      _save_last_prompt ;;
      print (NL ++ NL ++ py "👋 再见！")
  | st :: steps' =>
      iteration st ≫= fun again : bool =>
      if again then run_loop steps' else mret tt
  end.

Definition run (steps : list Step) : M unit :=
  show_welcome ;;
  run_loop steps.

End Driver.

(** ** Vocabulary of the further statements *)

(** The object is bound to a persona of the table: its log file is the
    one named from the persona and its configuration is the one made from
    the persona's instruction. *)
Definition bound (SYSTEM_PROMPTS : list (pystr * pystr)) (b : ChatBot) : Prop :=
  chat_log_file b = log_file_name (current_prompt b) /\
  exists instruction,
    dict_get SYSTEM_PROMPTS (current_prompt b) = Some instruction /\
    config b = make_config instruction.

(** A later state: another object, other files, more output. *)
Definition moved (b : ChatBot) (fs : gmap pystr pystr) (out : pystr)
    (s : State) : State :=
  {| self := b;
     world := {| files := fs;
                 read_error := read_error (world s);
                 write_error := write_error (world s);
                 stdout := stdout (world s) ++ out |} |}.

(** The files after writing [data] at the end of [path], if that works. *)
Definition appended (w : World) (path data : pystr) : gmap pystr pystr :=
  match write_error w path with
  | Some _ => files w
  | None => <[path := default [] (files w !! path) ++ data]> (files w)
  end.

(** What gets written of a text: all of it, or nothing when it cannot be
    encoded. *)
Definition kept (data : pystr) : pystr :=
  if Utf8.encodable data then data else [].

(** The files after saving the selection [name]: as before when the file
    cannot be opened; else the file holds the name, or is left empty when
    the name cannot be encoded. *)
Definition selected (w : World) (name : pystr) : gmap pystr pystr :=
  match write_error w LAST_PROMPT with
  | Some _ => files w
  | None => <[LAST_PROMPT := kept name]> (files w)
  end.

(** What [get_response] returns, adds to the history and writes to the
    log for the model's side of a turn. *)
Definition reply (st : Stream) : pystr :=
  match failure st with
  | Some e => error_msg (classify e) e
  | None => answer st
  end.

Definition model_turns (st : Stream) : list Content :=
  match failure st with
  | Some _ => []
  | None => turn_of_text MODEL (answer st)
  end.

Definition model_entry (now : datetime) (st : Stream) : pystr :=
  match failure st with
  | Some _ => []
  | None =>
      if truthy (Some (answer st)) then kept (log_entry now MODEL (answer st)) else []
  end.

(** A line that, trimmed to [user_input], is sent to the model: it is no
    quit word, no clear word, no [prompt:] command, and not empty. *)
Definition starts_turn (user_input : pystr) : Prop :=
  member (Str.lower user_input) QUIT_WORDS = false /\
  member (Str.lower user_input) CLEAR_WORDS = false /\
  Str.startswith (Str.lower user_input) PROMPT_PREFIX = false /\
  user_input <> [].

(** The files that are neither the selection nor the log of any name are
    the same in [fs] and [fs0]. *)
Definition kept_outside_chat (fs fs0 : gmap pystr pystr) : Prop :=
  forall path,
    path <> LAST_PROMPT ->
    (forall name, path <> log_file_name name) ->
    fs !! path = fs0 !! path.

(** Every file other than the selection holds in [fs] what it held in
    [fs0], possibly with more at its end (an absent file counts as empty). *)
Definition grown (fs fs0 : gmap pystr pystr) : Prop :=
  forall path,
    path <> LAST_PROMPT ->
    exists suffix, default [] (fs !! path) = default [] (fs0 !! path) ++ suffix.

(** [s'] comes after [s] in a run: from a bound object a bound object
    with the same model name, in the same environment, with no file
    touched other than the selection and the logs, and these only written
    at their end. *)
Definition follows (SYSTEM_PROMPTS : list (pystr * pystr)) (s s' : State) : Prop :=
  bound SYSTEM_PROMPTS (self s) ->
  bound SYSTEM_PROMPTS (self s') /\
  model (self s') = model (self s) /\
  read_error (world s') = read_error (world s) /\
  write_error (world s') = write_error (world s) /\
  kept_outside_chat (files (world s')) (files (world s)) /\
  grown (files (world s')) (files (world s)).

(** The selection file holds the persona of the object, as far as it could
    be written, if the file can be opened. *)
Definition saved (s : State) : Prop :=
  write_error (world s) LAST_PROMPT = None ->
  files (world s) !! LAST_PROMPT = Some (kept (current_prompt (self s))).

(** The history agrees with what the log gives back. *)
Definition in_sync (s : State) : Prop :=
  conversation_history (self s) = log_turns (world s) (chat_log_file (self s)).

(** A turn as [reconcile] makes it: the role is "user" or "model", there is
    one part, and its text is not empty, is one line and has no white
    space at either end. *)
Definition reconciled_turn (c : Content) : Prop :=
  (role c = USER \/ role c = MODEL) /\
  exists text,
    parts c = [Part_from_text text] /\
    text <> [] /\
    Str.contains text [10%N] = false /\
    Str.strip text = text.

(** Further data of the examples: a service that answers in one line, an
    environment in which nothing can be written, what a user types, and the
    state after a switch. *)
Definition ex_greeting : Service :=
  fun _ _ _ => Yield {| chunk_parts := []; chunk_text := Some (py "hi there") |} Done.

Definition ex_readonly : State :=
  {| self := self ex_state;
     world := {| files := ∅; read_error := no_errors;
                 write_error := fun _ => Some (py "Permission denied");
                 stdout := [] |} |}.

Definition ex_step (text : pystr) : Step :=
  {| typed := Line text; service := ex_greeting;
     clock_user := ex_now; clock_model := ex_now; interrupt := None |}.

Definition ex_steps : list Step :=
  [ex_step (py "hello"); ex_step (py "prompt:coder");
   ex_step (py "what now"); ex_step (py " Bye "); ex_step (py "never read")].

Definition ex_switched : State :=
  snd (switch_prompt ex_prompts (py "coder") ex_chatting).

(** A service that answers in two chunks, a step in which Ctrl+C arrives
    after the first of them, and a text that is one lone surrogate. *)
Definition ex_chunk : Chunk :=
  {| chunk_parts := []; chunk_text := Some (py "hi ") |}.

Definition ex_slow : Service :=
  fun _ _ _ =>
    Yield ex_chunk (Yield {| chunk_parts := []; chunk_text := Some (py "there") |} Done).

Definition ex_interrupted : Step :=
  {| typed := Line (py "hello"); service := ex_slow;
     clock_user := ex_now; clock_model := ex_now; interrupt := Some 1%nat |}.

Definition ex_surrogate : pystr := [55296%N].

(** ** Facts about the string methods *)

Module StrFacts.
Import Str.

Lemma startswith_app (p s : pystr) : startswith (p ++ s) p = true.
Proof.
  induction p as [|a p IH]; simpl; [reflexivity|].
  rewrite N.eqb_refl. exact IH.
Qed.

Lemma startswith_inv (p s : pystr) :
  startswith s p = true -> exists r, s = p ++ r.
Proof.
  revert s. induction p as [|a p IH]; intros s H.
  - exists s. reflexivity.
  - destruct s as [|b s]; simpl in H; [discriminate|].
    apply andb_prop in H as [Hab Hs].
    apply N.eqb_eq in Hab. subst b.
    destruct (IH _ Hs) as [r ->]. exists r. reflexivity.
Qed.

Lemma contains_here (s k : pystr) : startswith s k = true -> contains s k = true.
Proof. intros H. destruct s; simpl in *; rewrite H; reflexivity. Qed.

Lemma contains_app_r (a s k : pystr) :
  contains s k = true -> contains (a ++ s) k = true.
Proof.
  intros H. induction a as [|c a IH]; simpl; [exact H|].
  rewrite IH. apply orb_true_r.
Qed.

Lemma contains_middle (a k b : pystr) : contains (a ++ k ++ b) k = true.
Proof. apply contains_app_r, contains_here, startswith_app. Qed.

Lemma contains_cons_false (c : N) (s k : pystr) :
  contains (c :: s) k = false ->
  startswith (c :: s) k = false /\ contains s k = false.
Proof. simpl. intros H. apply orb_false_elim in H. exact H. Qed.

(** A one-character needle is absent exactly when no character equals it. *)
Lemma contains_char (c : N) (s : pystr) :
  contains s [c] = false <-> Forall (fun x => x <> c) s.
Proof.
  induction s as [|a s IH]; simpl.
  - split; [constructor | reflexivity].
  - rewrite andb_true_r. split.
    + intros H. apply orb_false_elim in H as [Hca Hs].
      constructor; [|apply IH; exact Hs].
      apply N.eqb_neq in Hca. congruence.
    + intros H. inversion H as [|? ? Hne Hs]; subst.
      apply orb_false_intro; [|apply IH; exact Hs].
      apply N.eqb_neq. congruence.
Qed.

Lemma replace_scan_skip (old new p s : pystr) :
  replace_scan old new (length p) (p ++ s) = replace_scan old new 0 s.
Proof. induction p as [|c p IH]; simpl; [reflexivity | exact IH]. Qed.

(** The occurrence at the front is replaced and the scan goes on behind it. *)
Lemma replace_prefix (old s new : pystr) :
  old <> [] -> replace (old ++ s) old new = new ++ replace s old new.
Proof.
  destruct old as [|a old]; [congruence | intros _].
  unfold replace.
  change (replace_scan (a :: old) new 0 ((a :: old) ++ s))
    with (if startswith ((a :: old) ++ s) (a :: old)
          then new ++ replace_scan (a :: old) new (length (a :: old) - 1) (old ++ s)
          else a :: replace_scan (a :: old) new 0 (old ++ s)).
  rewrite startswith_app.
  replace (length (a :: old) - 1) with (length old) by (simpl; lia).
  rewrite replace_scan_skip. reflexivity.
Qed.

(** Without an occurrence nothing changes. *)
Lemma replace_absent (old s new : pystr) :
  old <> [] -> contains s old = false -> replace s old new = s.
Proof.
  destruct old as [|a old]; [congruence | intros _].
  unfold replace. induction s as [|c s IH]; intros H; [reflexivity|].
  apply contains_cons_false in H as [Hhere Hrest].
  cbn [replace_scan]. rewrite Hhere. f_equal. apply IH, Hrest.
Qed.

Lemma replace_cons_other (c a : N) (old s new : pystr) :
  c <> a -> replace (c :: s) (a :: old) new = c :: replace s (a :: old) new.
Proof.
  intros Hne. unfold replace. cbn [replace_scan startswith].
  destruct (N.eqb_spec a c) as [->|_]; [congruence | reflexivity].
Qed.

Lemma split_no_sep (sep : N) (l : pystr) :
  Forall (fun x => x <> sep) l -> split sep l = [l].
Proof.
  induction 1 as [|c l Hc _ IH]; simpl; [reflexivity|].
  destruct (N.eqb_spec c sep) as [->|_]; [congruence|].
  rewrite IH. reflexivity.
Qed.

Lemma split_app_sep (sep : N) (l rest : pystr) :
  Forall (fun x => x <> sep) l ->
  split sep (l ++ sep :: rest) = l :: split sep rest.
Proof.
  induction 1 as [|c l Hc _ IH]; simpl.
  - rewrite N.eqb_refl. reflexivity.
  - destruct (N.eqb_spec c sep) as [->|_]; [congruence|].
    rewrite IH. reflexivity.
Qed.

Lemma lstrip_blank (s : pystr) : forallb isspace s = true -> lstrip s = [].
Proof.
  induction s as [|c s IH]; simpl; [reflexivity|].
  intros H. apply andb_prop in H as [Hc Hs]. rewrite Hc. apply IH, Hs.
Qed.

Lemma strip_blank (s : pystr) : forallb isspace s = true -> strip s = [].
Proof. intros H. unfold strip, rstrip. rewrite (lstrip_blank s H). reflexivity. Qed.

Lemma strip_space_cons (c : N) (s : pystr) :
  isspace c = true -> strip (c :: s) = strip s.
Proof. intros H. unfold strip. simpl. rewrite H. reflexivity. Qed.

End StrFacts.

(** ** The methods as state transformers *)

Lemma add_turns_nil (s : State) : add_turns [] s = s.
Proof. unfold add_turns, with_history. rewrite app_nil_r. reflexivity. Qed.

Lemma add_turns_app (a b : list Content) (s : State) :
  add_turns b (add_turns a s) = add_turns (a ++ b) s.
Proof. unfold add_turns, with_history. simpl. rewrite app_assoc. reflexivity. Qed.

Lemma add_message_run (r t : pystr) (s : State) :
  add_message r t s = (tt, add_turns [turn r t] s).
Proof. reflexivity. Qed.

Lemma load_line_run (line : pystr) (s : State) :
  load_line line s = (tt, add_turns (line_turns line) s).
Proof.
  unfold load_line, line_turns, turn_of_text.
  repeat match goal with
         | |- context [if ?c then _ else _] => destruct c
         end;
    rewrite ?add_message_run, ?add_turns_nil; reflexivity.
Qed.

Lemma for_each_load_line (lines : list pystr) (s : State) :
  for_each lines load_line s = (tt, add_turns (flat_map line_turns lines) s).
Proof.
  revert s. induction lines as [|line lines IH]; intros s; simpl.
  - rewrite add_turns_nil. reflexivity.
  - unfold mbind, M_bind. rewrite load_line_run, IH, add_turns_app. reflexivity.
Qed.

Lemma reconcile_lines (content : pystr) :
  reconcile content = flat_map line_turns (Str.split 10 content).
Proof. unfold reconcile. rewrite for_each_load_line. reflexivity. Qed.

Lemma _load_chat_history_run (s : State) :
  _load_chat_history s =
  if path_exists (world s) (chat_log_file (self s)) then
    match read_text (world s) (chat_log_file (self s)) with
    | Ok content => (tt, add_turns (reconcile content) s)
    | Raise e =>
        (tt, evolved (files (world s)) (py "⚠️ 加载历史对话失败: " ++ e ++ NL) s)
    end
  else (tt, s).
Proof.
  unfold _load_chat_history, mbind, M_bind, get_self, get_world.
  destruct (path_exists _ _); [|reflexivity].
  destruct (read_text _ _) as [content|e].
  - rewrite for_each_load_line, reconcile_lines. reflexivity.
  - unfold print, print_end, evolved. rewrite <- app_assoc. reflexivity.
Qed.

(** ** Marker lines *)

Section MarkerLines.
Import Str StrFacts.

Lemma line_turns_user (rest : pystr) :
  line_turns (USER_MARKER ++ rest) =
  turn_of_text USER (strip (replace rest USER_MARKER [])).
Proof.
  unfold line_turns. rewrite startswith_app.
  rewrite replace_prefix by discriminate. reflexivity.
Qed.

Lemma line_turns_ai (rest : pystr) :
  line_turns (AI_MARKER ++ rest) =
  turn_of_text MODEL (strip (replace rest AI_MARKER [])).
Proof.
  unfold line_turns. rewrite startswith_app.
  replace (startswith (AI_MARKER ++ rest) USER_MARKER) with false by reflexivity.
  rewrite replace_prefix by discriminate. reflexivity.
Qed.

Lemma line_turns_other (line : pystr) :
  startswith line USER_MARKER = false ->
  startswith line AI_MARKER = false ->
  line_turns line = [].
Proof. intros Hu Ha. unfold line_turns. rewrite Hu, Ha. reflexivity. Qed.

Lemma blank_no_star (ws m : pystr) :
  forallb isspace ws = true -> contains ws (42%N :: m) = false.
Proof.
  induction ws as [|c ws IH]; intros H; [reflexivity|].
  simpl in H. apply andb_prop in H as [Hc Hws].
  cbn [contains startswith]. rewrite (IH Hws).
  destruct (N.eqb_spec 42 c) as [<-|_]; [discriminate Hc | reflexivity].
Qed.

Lemma blank_not_marker (line m : pystr) :
  blank_line line = true -> startswith line (42%N :: m) = false.
Proof.
  intros H. pose proof (blank_no_star line m H) as Hc.
  destruct line as [|c line]; [reflexivity|].
  apply contains_cons_false in Hc. apply Hc.
Qed.

Lemma line_turns_blank (line : pystr) :
  blank_line line = true -> line_turns line = [].
Proof.
  intros H. apply line_turns_other; apply blank_not_marker; exact H.
Qed.

Lemma line_turns_timestamp (line : pystr) :
  timestamp_line line = true -> line_turns line = [].
Proof.
  intros H. apply startswith_inv in H as [r ->].
  apply line_turns_other; reflexivity.
Qed.

Lemma marker_then_blank (m ws : pystr) :
  blank_line ws = true -> strip (replace ws (42%N :: m) []) = [].
Proof.
  intros H. rewrite replace_absent by (discriminate || apply blank_no_star; exact H).
  apply strip_blank, H.
Qed.

End MarkerLines.

(** ** The reconciler (claims C3, C4 and C9) *)

(** C3, as the code has it: [reconcile] splits the log text at line feeds
    and scans the lines in order, each line contributing by itself.  A line
    that begins with the user marker yields a user turn, one that begins
    with the assistant marker a model turn; the text of the turn is the
    line with every occurrence of that marker taken out, trimmed, and no
    turn is made of an empty text.  When the rest of the line does not
    hold the marker again, the text is the remainder after the prefix,
    trimmed.  Any other line is ignored, also one that holds a marker
    further on. *)
Theorem C3_reconcile_scans_lines (content : pystr) :
  reconcile content = flat_map line_turns (Str.split 10 content) /\
  (forall line s, load_line line s = (tt, add_turns (line_turns line) s)) /\
  (forall rest,
      line_turns (USER_MARKER ++ rest) =
      turn_of_text USER (Str.strip (Str.replace rest USER_MARKER []))) /\
  (forall rest,
      line_turns (AI_MARKER ++ rest) =
      turn_of_text MODEL (Str.strip (Str.replace rest AI_MARKER []))) /\
  (forall rest, Str.contains rest USER_MARKER = false ->
      line_turns (USER_MARKER ++ rest) = turn_of_text USER (Str.strip rest)) /\
  (forall rest, Str.contains rest AI_MARKER = false ->
      line_turns (AI_MARKER ++ rest) = turn_of_text MODEL (Str.strip rest)) /\
  (forall line,
      Str.startswith line USER_MARKER = false ->
      Str.startswith line AI_MARKER = false ->
      line_turns line = []).
Proof.
  split; [apply reconcile_lines|].
  split; [apply load_line_run|].
  split; [apply line_turns_user|].
  split; [apply line_turns_ai|].
  split; [|split].
  - intros rest H. rewrite line_turns_user.
    rewrite StrFacts.replace_absent by (discriminate || exact H). reflexivity.
  - intros rest H. rewrite line_turns_ai.
    rewrite StrFacts.replace_absent by (discriminate || exact H). reflexivity.
  - apply line_turns_other.
Qed.

(** C3 as the specification words it fails: on a line whose text holds the
    marker again, the turn does not carry the remainder after the prefix. *)
Lemma C3_counterexample :
  Str.startswith (py "**😊 你:** a **😊 你:** b") USER_MARKER = true /\
  reconcile (py "**😊 你:** a **😊 你:** b") = [turn USER (py "a  b")] /\
  Str.strip (drop (length USER_MARKER) (py "**😊 你:** a **😊 你:** b"))
    = py "a **😊 你:** b" /\
  reconcile (py "**😊 你:** a **😊 你:** b") <>
    [turn USER (Str.strip (drop (length USER_MARKER) (py "**😊 你:** a **😊 你:** b")))].
Proof.
  split; [reflexivity|]. split; [reflexivity|]. split; [reflexivity|].
  vm_compute. discriminate.
Qed.

(** C4: nothing is read back from a log that does not exist, from an empty
    log, or from a log of blank lines and time lines only; and a marker
    line whose text is empty once trimmed adds no turn. *)
Theorem C4_nothing_to_reconcile :
  (forall s, path_exists (world s) (chat_log_file (self s)) = false ->
      _load_chat_history s = (tt, s)) /\
  (forall s, files (world s) !! chat_log_file (self s) = Some [] ->
      read_error (world s) (chat_log_file (self s)) = None ->
      _load_chat_history s = (tt, s)) /\
  reconcile [] = [] /\
  (forall content,
      forallb (fun l => blank_line l || timestamp_line l) (Str.split 10 content) = true ->
      reconcile content = []) /\
  (forall ws s, blank_line ws = true ->
      load_line (USER_MARKER ++ ws) s = (tt, s) /\
      load_line (AI_MARKER ++ ws) s = (tt, s)).
Proof.
  split; [|split; [|split; [|split]]].
  - intros s H. rewrite _load_chat_history_run, H. reflexivity.
  - intros s Hf Hr. rewrite _load_chat_history_run.
    unfold path_exists, read_text. rewrite Hf, Hr. simpl.
    change (reconcile []) with (@nil Content). rewrite add_turns_nil. reflexivity.
  - reflexivity.
  - intros content H. rewrite reconcile_lines.
    induction (Str.split 10 content) as [|l ls IH]; [reflexivity|].
    simpl in H. apply andb_prop in H as [Hl Hls]. simpl.
    rewrite (IH Hls), app_nil_r.
    apply orb_prop in Hl as [Hb|Ht];
      [apply line_turns_blank | apply line_turns_timestamp]; assumption.
  - intros ws s H. rewrite !load_line_run, line_turns_user, line_turns_ai.
    unfold USER_MARKER, AI_MARKER. rewrite !marker_then_blank by exact H.
    unfold turn_of_text. simpl. rewrite add_turns_nil. split; reflexivity.
Qed.

(** C9: on a marker line the whole line goes through [replace], so the
    marker is taken out wherever the scan finds it, not only at the front;
    there is a line whose turn differs from the remainder after the
    prefix. *)
Theorem C9_marker_removed_everywhere :
  (forall rest s,
      load_line (USER_MARKER ++ rest) s =
      (tt, add_turns (turn_of_text USER
                        (Str.strip (Str.replace rest USER_MARKER []))) s)) /\
  (forall rest s,
      load_line (AI_MARKER ++ rest) s =
      (tt, add_turns (turn_of_text MODEL
                        (Str.strip (Str.replace rest AI_MARKER []))) s)) /\
  (exists rest,
      Str.contains rest USER_MARKER = true /\
      reconcile (USER_MARKER ++ rest) = [turn USER (py "a  b")] /\
      Str.strip rest = py "a **😊 你:** b" /\
      reconcile (USER_MARKER ++ rest) <> [turn USER (Str.strip rest)]).
Proof.
  split; [|split].
  - intros rest s. rewrite load_line_run, line_turns_user. reflexivity.
  - intros rest s. rewrite load_line_run, line_turns_ai. reflexivity.
  - exists (py " a **😊 你:** b").
    split; [reflexivity|]. split; [reflexivity|]. split; [reflexivity|].
    vm_compute. discriminate.
Qed.

(** ** Submitting a turn (claims C1, C7 and C10) *)

Lemma evolved_evolved (fs1 fs2 : gmap pystr pystr) (o1 o2 : pystr) (s : State) :
  evolved fs2 o2 (evolved fs1 o1 s) = evolved fs2 (o1 ++ o2) s.
Proof. unfold evolved. simpl. rewrite app_assoc. reflexivity. Qed.

Lemma evolved_refl (s : State) : s = evolved (files (world s)) [] s.
Proof. unfold evolved. rewrite app_nil_r. reflexivity. Qed.

Lemma print_end_run (text : pystr) (s : State) :
  print_end text s = (tt, evolved (files (world s)) text s).
Proof. reflexivity. Qed.

Lemma print_run (text : pystr) (s : State) :
  print text s = (tt, evolved (files (world s)) (text ++ NL) s).
Proof. reflexivity. Qed.

Lemma log_entry_eq (now : datetime) (role message : pystr) :
  NL ++ py "**" ++ (if decide (role = USER) then USER_DISPLAY else AI_DISPLAY) ++
  py ":** " ++ message ++ NL ++ TIME_LABEL ++ strftime now ++ py "*" ++ NL
  = log_entry now role message.
Proof. unfold log_entry, marker_of. destruct (decide (role = USER)); reflexivity. Qed.

Lemma _save_to_log_run (now : datetime) (role message : pystr) (s : State) :
  _save_to_log now role message s =
  (tt, evolved
         (appended (world s) (chat_log_file (self s))
            (kept (log_entry now role message)))
         (match snd (append_text (world s) (chat_log_file (self s))
                       (log_entry now role message)) with
          | None => []
          | Some e => py "⚠️ 保存对话记录失败: " ++ e ++ NL
          end) s).
Proof.
  unfold _save_to_log. rewrite log_entry_eq.
  unfold mbind, M_bind, get_self, get_world, append_text, appended, kept.
  destruct (write_error _ _) as [e|].
  - cbn [snd]. unfold put_world. rewrite print_run, <- app_assoc. reflexivity.
  - destruct (Utf8.encodable (log_entry now role message)); cbn [snd].
    + unfold put_world, mret, M_ret, evolved, set_files.
      cbn [self world files read_error write_error stdout].
      rewrite app_nil_r. reflexivity.
    + unfold put_world. rewrite print_run, <- app_assoc, app_nil_r. reflexivity.
Qed.

Lemma _save_to_log_evolves (now : datetime) (role message : pystr) (s : State) :
  exists fs out, _save_to_log now role message s = (tt, evolved fs out s).
Proof. rewrite _save_to_log_run. eauto. Qed.

Lemma show_thoughts_evolves (ps : list Part) (s : State) :
  exists out, show_thoughts ps s = (tt, evolved (files (world s)) out s).
Proof.
  unfold show_thoughts. revert s.
  induction ps as [|p ps IH]; intros s; cbn [for_each].
  - exists []. rewrite <- evolved_refl. reflexivity.
  - unfold mbind, M_bind.
    destruct (negb (truthy (part_text p))); [|destruct (part_thought p)].
    + apply IH.
    + rewrite print_run.
      match goal with
      | |- context [for_each ps _ ?t] => destruct (IH t) as [out E]
      end.
      rewrite E. eexists. rewrite evolved_evolved. reflexivity.
    + apply IH.
Qed.

Lemma consume_run (st : Stream) (acc : pystr) (s : State) :
  exists out,
    consume st acc s =
    (match failure st with
     | Some e => Raise e
     | None => Ok (acc ++ answer st)
     end, evolved (files (world s)) out s).
Proof.
  revert acc s. induction st as [|chunk rest IH|e]; intros acc s; simpl.
  - exists []. rewrite app_nil_r, <- evolved_refl. reflexivity.
  - unfold mbind, M_bind.
    destruct (show_thoughts_evolves (chunk_parts chunk) s) as [o1 E1]. rewrite E1.
    destruct (truthy (chunk_text chunk)).
    + rewrite print_end_run.
      match goal with
      | |- context [consume rest ?a ?t] => destruct (IH a t) as [o2 E2]
      end.
      rewrite E2. simpl files. rewrite !evolved_evolved, <- app_assoc.
      eexists. reflexivity.
    + destruct (IH acc (evolved (files (world s)) o1 s)) as [o2 E2].
      rewrite E2. simpl files. rewrite evolved_evolved.
      eexists. reflexivity.
  - exists []. rewrite <- evolved_refl. reflexivity.
Qed.

Lemma get_response_run (svc : Service) (now_user now_model : datetime)
    (user_input : pystr) (s : State) :
  exists fs out,
    get_response svc now_user now_model user_input s =
    match failure (request svc user_input s) with
    | Some e =>
        (error_msg (classify e) e,
         evolved fs (out ++ error_msg (classify e) e ++ NL)
           (add_turns [turn USER user_input] s))
    | None =>
        (answer (request svc user_input s),
         evolved fs out
           (add_turns ([turn USER user_input] ++
                       turn_of_text MODEL (answer (request svc user_input s))) s))
    end.
Proof.
  unfold get_response, mbind, M_bind. rewrite add_message_run.
  destruct (_save_to_log_evolves now_user USER user_input
              (add_turns [turn USER user_input] s)) as (fs1 & o1 & E1).
  rewrite E1. unfold get_self.
  change (svc _ _ _) with (request svc user_input s).
  destruct (consume_run (request svc user_input s) []
              (evolved fs1 o1 (add_turns [turn USER user_input] s))) as (o2 & E2).
  rewrite E2. simpl files.
  destruct (failure (request svc user_input s)) as [e|].
  - rewrite print_run, !evolved_evolved. exists fs1, (o1 ++ o2).
    rewrite <- app_assoc. reflexivity.
  - cbn [app]. unfold turn_of_text.
    destruct (truthy (Some (answer (request svc user_input s)))).
    + rewrite add_message_run.
      match goal with
      | |- context [_save_to_log ?n ?r ?m ?t] =>
          destruct (_save_to_log_evolves n r m t) as (fs3 & o3 & E3)
      end.
      rewrite E3. unfold mret, M_ret. exists fs3, (o1 ++ o2 ++ o3).
      f_equal. unfold evolved, add_turns, with_history. simpl.
      rewrite <- !app_assoc. reflexivity.
    + unfold mret, M_ret. exists fs1, (o1 ++ o2).
      rewrite evolved_evolved. reflexivity.
Qed.

Lemma classify_order (e : pystr) :
  (Str.contains e API_KEY = true -> classify e = AuthError) /\
  (Str.contains e API_KEY = false ->
   Str.contains (Str.lower e) quota = true -> classify e = QuotaExceeded) /\
  (Str.contains e API_KEY = false ->
   Str.contains (Str.lower e) quota = false ->
   Str.contains (Str.lower e) rate = true -> classify e = RateLimited) /\
  (Str.contains e API_KEY = false ->
   Str.contains (Str.lower e) quota = false ->
   Str.contains (Str.lower e) rate = false -> classify e = TransportError).
Proof.
  unfold classify. repeat split; intros; 
    repeat match goal with H : _ = _ |- _ => rewrite H; clear H end; reflexivity.
Qed.

Lemma classify_agrees (e : pystr) :
  Str.contains e API_KEY = false \/
  (Str.contains (Str.lower e) quota = false /\
   Str.contains (Str.lower e) rate = false) ->
  classify e = classify_spec e.
Proof.
  unfold classify, classify_spec. intros [H|[Hq Hr]].
  - rewrite H. reflexivity.
  - rewrite Hq, Hr. destruct (Str.contains e API_KEY); reflexivity.
Qed.

Lemma error_msg_not_empty (k : ErrorKind) (e : pystr) : error_msg k e <> [].
Proof. destruct k; vm_compute; discriminate. Qed.

(** C1, as the code has it: when the model service fails with description
    [e], [get_response] returns the message of [classify e], and the tests
    run in the order of the source: "API_KEY" (as written) first, then
    "quota" and "rate" in the lowered description, else the transport
    error.  This is the specification's order whenever "API_KEY" is absent,
    or both "quota" and "rate" are. *)
Theorem C1_classification_order (svc : Service) (now_user now_model : datetime)
    (user_input : pystr) (s : State) (e : pystr) :
  failure (request svc user_input s) = Some e ->
  fst (get_response svc now_user now_model user_input s) = error_msg (classify e) e /\
  (Str.contains e API_KEY = true -> classify e = AuthError) /\
  (Str.contains e API_KEY = false ->
   Str.contains (Str.lower e) quota = true -> classify e = QuotaExceeded) /\
  (Str.contains e API_KEY = false ->
   Str.contains (Str.lower e) quota = false ->
   Str.contains (Str.lower e) rate = true -> classify e = RateLimited) /\
  (Str.contains e API_KEY = false ->
   Str.contains (Str.lower e) quota = false ->
   Str.contains (Str.lower e) rate = false -> classify e = TransportError) /\
  (Str.contains e API_KEY = false \/
   (Str.contains (Str.lower e) quota = false /\
    Str.contains (Str.lower e) rate = false) ->
   classify e = classify_spec e).
Proof.
  intros Hf.
  destruct (get_response_run svc now_user now_model user_input s) as (fs & out & E).
  rewrite Hf in E. rewrite E.
  split; [reflexivity|].
  pose proof (classify_order e) as (H1 & H2 & H3 & H4).
  repeat split; try assumption. apply classify_agrees.
Qed.

(** C1 as the specification words it fails: a description with both
    "API_KEY" and "quota" is reported as a credential error. *)
Lemma C1_counterexample :
  Str.contains (Str.lower (py "Quota exceeded for API_KEY")) quota = true /\
  classify_spec (py "Quota exceeded for API_KEY") = QuotaExceeded /\
  classify (py "Quota exceeded for API_KEY") = AuthError /\
  fst (get_response (fun _ _ _ => Fail (py "Quota exceeded for API_KEY"))
         ex_now ex_now (py "hi") ex_state)
  = error_msg AuthError (py "Quota exceeded for API_KEY") /\
  error_msg AuthError (py "Quota exceeded for API_KEY")
  <> error_msg QuotaExceeded (py "Quota exceeded for API_KEY").
Proof.
  repeat split; try reflexivity. vm_compute. discriminate.
Qed.

(** C7, as the code has it: when the model service fails, the history
    gains the user's turn and nothing else, and the error message is both
    printed and returned; when the stream ends without any answer text, the
    history again gains only the user's turn, and the value returned is the
    empty string. *)
Theorem C7_failed_submit (svc : Service) (now_user now_model : datetime)
    (user_input : pystr) (s : State) :
  (forall e, failure (request svc user_input s) = Some e ->
     fst (get_response svc now_user now_model user_input s)
       = error_msg (classify e) e /\
     self (snd (get_response svc now_user now_model user_input s))
       = with_history (self s)
           (conversation_history (self s) ++ [turn USER user_input]) /\
     exists out,
       stdout (world (snd (get_response svc now_user now_model user_input s)))
       = stdout (world s) ++ out ++ error_msg (classify e) e ++ NL) /\
  (failure (request svc user_input s) = None ->
   answer (request svc user_input s) = [] ->
     fst (get_response svc now_user now_model user_input s) = [] /\
     self (snd (get_response svc now_user now_model user_input s))
       = with_history (self s)
           (conversation_history (self s) ++ [turn USER user_input])).
Proof.
  destruct (get_response_run svc now_user now_model user_input s) as (fs & out & E).
  split.
  - intros e Hf. rewrite Hf in E. rewrite E.
    split; [reflexivity|]. split; [reflexivity|].
    exists out. reflexivity.
  - intros Hf Ha. rewrite Hf, Ha in E. rewrite E.
    split; reflexivity.
Qed.

(** C7 as the specification words it fails: after a stream without answer
    text the value returned is the empty string, which is no error
    message, and nothing is printed. *)
Lemma C7_counterexample :
  failure (request (fun _ _ _ => Done) (py "hi") ex_state) = None /\
  answer (request (fun _ _ _ => Done) (py "hi") ex_state) = [] /\
  fst (get_response (fun _ _ _ => Done) ex_now ex_now (py "hi") ex_state) = [] /\
  stdout (world (snd (get_response (fun _ _ _ => Done) ex_now ex_now (py "hi") ex_state))) = [] /\
  (forall k e,
     fst (get_response (fun _ _ _ => Done) ex_now ex_now (py "hi") ex_state)
     <> error_msg k e).
Proof.
  repeat split; try reflexivity.
  intros k e H. apply (error_msg_not_empty k e). symmetry. exact H.
Qed.

(** C10: the credential test looks for "API_KEY" as written.  A description
    without it is never classified as a credential error; one that spells
    it "api_key" and holds neither "quota" nor "rate" is a transport
    error. *)
Theorem C10_auth_test_case_sensitive :
  (forall e, Str.contains e API_KEY = false -> classify e <> AuthError) /\
  (exists e,
     Str.contains e (py "api_key") = true /\
     Str.contains (Str.lower e) quota = false /\
     Str.contains (Str.lower e) rate = false /\
     classify e = TransportError /\
     fst (get_response (fun _ _ _ => Fail e) ex_now ex_now (py "hi") ex_state)
     = error_msg TransportError e).
Proof.
  split.
  - intros e H. unfold classify. rewrite H.
    destruct (Str.contains (Str.lower e) quota); [discriminate|].
    destruct (Str.contains (Str.lower e) rate); discriminate.
  - exists (py "invalid api_key"). repeat split; reflexivity.
Qed.

(** ** The persisted selection (claim C8) *)

(** C8: [_load_last_prompt] always returns a name and raises nothing.  It
    is the default name when the selection file is absent, when reading it
    raises, and when the stored text, trimmed, is not a key of the persona
    table; it is the stored text, trimmed, when that is a key.  So a name
    other than the default is returned only if it is a key. *)
Theorem C8_load_last_prompt_total (SYSTEM_PROMPTS : list (pystr * pystr))
    (DEFAULT_PROMPT : pystr) (w : World) :
  exists name,
    _load_last_prompt SYSTEM_PROMPTS DEFAULT_PROMPT w = Ok name /\
    (files w !! LAST_PROMPT = None -> name = DEFAULT_PROMPT) /\
    (forall e, read_error w LAST_PROMPT = Some e -> name = DEFAULT_PROMPT) /\
    (forall data, read_text w LAST_PROMPT = Ok data ->
       dict_has SYSTEM_PROMPTS (Str.strip data) = false ->
       name = DEFAULT_PROMPT) /\
    (forall data, read_text w LAST_PROMPT = Ok data ->
       dict_has SYSTEM_PROMPTS (Str.strip data) = true ->
       name = Str.strip data) /\
    (name <> DEFAULT_PROMPT -> dict_has SYSTEM_PROMPTS name = true).
Proof.
  unfold _load_last_prompt, path_exists, read_text.
  destruct (files w !! LAST_PROMPT) as [data|] eqn:Hfile.
  - destruct (read_error w LAST_PROMPT) as [e|] eqn:Herr.
    + exists DEFAULT_PROMPT. repeat split; congruence.
    + destruct (dict_has SYSTEM_PROMPTS (Str.strip (universal_newlines data))) eqn:Hkey.
      * exists (Str.strip (universal_newlines data)).
        repeat split; try congruence;
          intros d Hd; injection Hd as <-; congruence.
      * exists DEFAULT_PROMPT.
        repeat split; try congruence;
          intros d Hd; injection Hd as <-; congruence.
  - exists DEFAULT_PROMPT. destruct (read_error w LAST_PROMPT); repeat split; congruence.
Qed.

(** ** Persona switching (claims C5 and C6) *)

Section Switching.
Import Str StrFacts.

Variable SYSTEM_PROMPTS : list (pystr * pystr).

Lemma startswith_app_l (a b k : pystr) :
  startswith a k = true -> startswith (a ++ b) k = true.
Proof.
  intros H. apply startswith_inv in H as [r ->].
  rewrite <- app_assoc. apply startswith_app.
Qed.

Lemma contains_app_l (a b k : pystr) :
  contains a k = true -> contains (a ++ b) k = true.
Proof.
  induction a as [|c a IH]; simpl; intros H.
  - rewrite orb_false_r in H. apply contains_here.
    apply (startswith_app_l [] b k H).
  - apply orb_prop in H as [H|H].
    + pose proof (startswith_app_l (c :: a) b k H) as H'.
      simpl in H'. rewrite H'. reflexivity.
    + rewrite (IH H). apply orb_true_r.
Qed.

Lemma prompt_lines_name_all (b : ChatBot) (l : list (pystr * pystr)) :
  Forall (fun kv => contains (flat_map (prompt_line b) l) (fst kv) = true) l.
Proof.
  induction l as [|kv l IH]; constructor.
  - cbn [flat_map]. apply contains_app_l. unfold prompt_line.
    apply contains_middle.
  - eapply Forall_impl; [exact IH|].
    intros kv' H. cbn [flat_map]. apply contains_app_r, H.
Qed.

Lemma list_prompts_loop (b : ChatBot) (l : list (pystr * pystr)) (s : State) :
  for_each l (fun '(key, value) =>
    let status := if decide (key = current_prompt b) then py " (当前)" else [] in
    let preview := replace (take 30 value) NL (py " ") ++ py "..." in
    print (py "   " ++ key ++ status ++ py " - " ++ preview)) s
  = (tt, evolved (files (world s)) (flat_map (prompt_line b) l) s).
Proof.
  revert s. induction l as [|[key value] l IH]; intros s; cbn [for_each flat_map].
  - rewrite <- evolved_refl. reflexivity.
  - unfold mbind, M_bind. rewrite print_run, IH, evolved_evolved.
    unfold prompt_line. cbn [fst snd files world evolved].
    rewrite <- !app_assoc. reflexivity.
Qed.

Lemma list_prompts_run (s : State) :
  list_prompts SYSTEM_PROMPTS s =
  (tt, evolved (files (world s))
         (((NL ++ py "📋 可用的系统提示词：") ++ NL) ++
          flat_map (prompt_line (self s)) SYSTEM_PROMPTS ++ NL) s).
Proof.
  unfold list_prompts, mbind, M_bind, get_self.
  rewrite print_run, list_prompts_loop, print_run, !evolved_evolved.
  reflexivity.
Qed.

Lemma dict_has_get (k : pystr) :
  dict_has SYSTEM_PROMPTS k = false -> dict_get SYSTEM_PROMPTS k = None.
Proof. unfold dict_has. destruct (dict_get _ _); [discriminate | reflexivity]. Qed.

Lemma switch_prompt_rejected (name : pystr) (s : State) :
  dict_has SYSTEM_PROMPTS name = false ->
  switch_prompt SYSTEM_PROMPTS name s =
  (tt, evolved (files (world s))
         (((py "❌ 提示词 '" ++ name ++ py "' 不存在") ++ NL) ++
          ((NL ++ py "📋 可用的系统提示词：") ++ NL) ++
          flat_map (prompt_line (self s)) SYSTEM_PROMPTS ++ NL) s).
Proof.
  intros H. unfold switch_prompt. rewrite (dict_has_get name H).
  unfold mbind, M_bind. rewrite print_run, list_prompts_run, evolved_evolved.
  reflexivity.
Qed.

(** C5: a name that is not in the persona table is rejected.  The object
    is left as it was (active persona, turns, log file, configuration), no
    file is touched, so the persisted selection reads as before, and what
    is printed holds every name of the table. *)
Theorem C5_switch_rejected (DEFAULT_PROMPT name : pystr) (s : State) :
  dict_has SYSTEM_PROMPTS name = false ->
  self (snd (switch_prompt SYSTEM_PROMPTS name s)) = self s /\
  files (world (snd (switch_prompt SYSTEM_PROMPTS name s))) = files (world s) /\
  _load_last_prompt SYSTEM_PROMPTS DEFAULT_PROMPT
    (world (snd (switch_prompt SYSTEM_PROMPTS name s)))
  = _load_last_prompt SYSTEM_PROMPTS DEFAULT_PROMPT (world s) /\
  exists out,
    stdout (world (snd (switch_prompt SYSTEM_PROMPTS name s)))
    = stdout (world s) ++ out /\
    Forall (fun kv => contains out (fst kv) = true) SYSTEM_PROMPTS.
Proof.
  intros H. rewrite (switch_prompt_rejected name s H). cbn [snd].
  split; [reflexivity|]. split; [reflexivity|]. split; [reflexivity|].
  eexists. split; [reflexivity|].
  eapply Forall_impl; [apply (prompt_lines_name_all (self s))|].
  intros kv Hkv. cbn beta in *.
  apply contains_app_r, contains_app_r, contains_app_l, Hkv.
Qed.

End Switching.

Section SwitchingAccepted.

Variable SYSTEM_PROMPTS : list (pystr * pystr).

Lemma log_file_not_selection (name : pystr) : LAST_PROMPT <> log_file_name name.
Proof. unfold log_file_name. cbv. discriminate. Qed.

Lemma _save_last_prompt_run (s : State) :
  _save_last_prompt s =
  (tt, evolved (selected (world s) (current_prompt (self s)))
         (match snd (write_text (world s) LAST_PROMPT (current_prompt (self s))) with
          | None => []
          | Some e => py "⚠️ 保存提示词状态失败: " ++ e ++ NL
          end) s).
Proof.
  unfold _save_last_prompt, mbind, M_bind, get_self, get_world, write_text,
    selected, kept.
  destruct (write_error _ _) as [e|].
  - cbn [snd]. unfold put_world. rewrite print_run, <- app_assoc. reflexivity.
  - destruct (Utf8.encodable (current_prompt (self s))); cbn [snd].
    + unfold put_world, mret, M_ret, evolved, set_files.
      cbn [self world files read_error write_error stdout].
      rewrite app_nil_r. reflexivity.
    + unfold put_world. rewrite print_run, <- app_assoc. reflexivity.
Qed.

Lemma _save_last_prompt_evolves (s : State) :
  exists fs out,
    _save_last_prompt s = (tt, evolved fs out s) /\
    (forall path, LAST_PROMPT <> path -> fs !! path = files (world s) !! path) /\
    (write_error (world s) LAST_PROMPT = None ->
     fs = <[LAST_PROMPT := kept (current_prompt (self s))]> (files (world s))).
Proof.
  rewrite _save_last_prompt_run.
  exists (selected (world s) (current_prompt (self s))). eexists.
  split; [reflexivity|].
  unfold selected. destruct (write_error (world s) LAST_PROMPT) as [e|].
  - split; [intros; reflexivity | congruence].
  - split; [intros path Hne; apply lookup_insert_ne, Hne | intros _; reflexivity].
Qed.

Lemma log_turns_same (w w' : World) (path : pystr) :
  files w' !! path = files w !! path ->
  read_error w' = read_error w ->
  log_turns w' path = log_turns w path.
Proof.
  intros Hf Hr. unfold log_turns, path_exists, read_text. rewrite Hf, Hr. reflexivity.
Qed.

Lemma _load_chat_history_turns (s : State) :
  exists out,
    _load_chat_history s =
    (tt, evolved (files (world s)) out
           (add_turns (log_turns (world s) (chat_log_file (self s))) s)).
Proof.
  rewrite _load_chat_history_run. unfold log_turns.
  destruct (path_exists _ _).
  - destruct (read_text _ _) as [content|e].
    + exists []. rewrite <- (evolved_refl (add_turns _ s)). reflexivity.
    + eexists. rewrite add_turns_nil. reflexivity.
  - exists []. rewrite add_turns_nil, <- evolved_refl. reflexivity.
Qed.

Lemma switch_prompt_accepted (name instruction : pystr) (s : State) :
  dict_get SYSTEM_PROMPTS name = Some instruction ->
  exists fs out,
    switch_prompt SYSTEM_PROMPTS name s =
    (tt, evolved fs out {| self := switched name instruction s; world := world s |}) /\
    fs !! log_file_name name = files (world s) !! log_file_name name /\
    (write_error (world s) LAST_PROMPT = None ->
     fs = <[LAST_PROMPT := kept name]> (files (world s))).
Proof.
  intros Hget. unfold switch_prompt. rewrite Hget.
  unfold mbind, M_bind.
  unfold set_current_prompt, set_chat_log_file, set_config,
    set_conversation_history, mbind, M_bind, get_self, put_self.
  cbn [fst snd self world model conversation_history current_prompt
       chat_log_file config].
  match goal with
  | |- context [_save_last_prompt ?t] =>
      destruct (_save_last_prompt_evolves t) as (fs1 & o1 & E1 & Hother & Hsel)
  end.
  rewrite E1.
  cbn [fst snd self world model conversation_history current_prompt
       chat_log_file config evolved files read_error write_error stdout] in *.
  match goal with
  | |- context [_load_chat_history ?t] =>
      destruct (_load_chat_history_turns t) as (o2 & E2)
  end.
  rewrite E2.
  cbn [fst snd self world model conversation_history current_prompt
       chat_log_file config evolved files read_error write_error stdout
       add_turns with_history app] in *.
  rewrite !print_run.
  cbn [fst snd self world model conversation_history current_prompt
       chat_log_file config evolved files read_error write_error stdout].
  assert (Hturns :
    log_turns {| files := fs1; read_error := read_error (world s);
                 write_error := write_error (world s);
                 stdout := stdout (world s) ++ o1 |} (log_file_name name)
    = log_turns (world s) (log_file_name name)).
  { apply log_turns_same; [|reflexivity].
    apply Hother, log_file_not_selection. }
  rewrite Hturns.
  exists fs1.
  match goal with
  | |- context [if ?c then _ else _] => destruct c
  end;
    rewrite print_run; eexists;
    (split; [|split; [apply Hother, log_file_not_selection | exact Hsel]]);
    unfold evolved, switched, add_turns, with_history;
    cbn [fst snd self world model conversation_history current_prompt
         chat_log_file config files read_error write_error stdout app];
    rewrite <- !app_assoc; reflexivity.
Qed.

End SwitchingAccepted.

Lemma clear_history_run (s : State) :
  clear_history s =
  (tt, evolved (files (world s)) ((NL ++ py "✨ 对话历史已清空" ++ NL) ++ NL)
         {| self := with_history (self s) []; world := world s |}).
Proof. reflexivity. Qed.

(** C6, as the code has it: [clear_history] empties the turns in memory
    and leaves the active persona, the log binding and every file as they
    were.  A switch to the same persona afterwards reads the log again: the
    turns are then those that can be read back from the persona's log, the
    same as the switch gives without the clear, and the log itself is not
    changed by either step.  They are the turns held before the clear
    whenever those agreed with the log. *)
Theorem C6_clear_then_switch (SYSTEM_PROMPTS : list (pystr * pystr))
    (instruction : pystr) (s : State) :
  dict_get SYSTEM_PROMPTS (current_prompt (self s)) = Some instruction ->
  conversation_history (self (snd (clear_history s))) = [] /\
  current_prompt (self (snd (clear_history s))) = current_prompt (self s) /\
  chat_log_file (self (snd (clear_history s))) = chat_log_file (self s) /\
  files (world (snd (clear_history s))) = files (world s) /\
  conversation_history
    (self (snd (switch_prompt SYSTEM_PROMPTS (current_prompt (self s))
                  (snd (clear_history s)))))
  = log_turns (world s) (log_file_name (current_prompt (self s))) /\
  conversation_history
    (self (snd (switch_prompt SYSTEM_PROMPTS (current_prompt (self s))
                  (snd (clear_history s)))))
  = conversation_history
      (self (snd (switch_prompt SYSTEM_PROMPTS (current_prompt (self s)) s))) /\
  files (world (snd (switch_prompt SYSTEM_PROMPTS (current_prompt (self s))
                       (snd (clear_history s)))))
    !! log_file_name (current_prompt (self s))
  = files (world s) !! log_file_name (current_prompt (self s)) /\
  (conversation_history (self s)
   = log_turns (world s) (log_file_name (current_prompt (self s))) ->
   conversation_history
     (self (snd (switch_prompt SYSTEM_PROMPTS (current_prompt (self s))
                   (snd (clear_history s)))))
   = conversation_history (self s)).
Proof.
  intros Hget. rewrite clear_history_run. cbn [snd].
  split; [reflexivity|]. split; [reflexivity|].
  split; [reflexivity|]. split; [reflexivity|].
  match goal with
  | |- context [switch_prompt _ ?n ?t] =>
      destruct (switch_prompt_accepted SYSTEM_PROMPTS n instruction t Hget)
        as (fs & out & E & Hlog & _)
  end.
  destruct (switch_prompt_accepted SYSTEM_PROMPTS _ instruction s Hget)
    as (fs' & out' & E' & _ & _).
  rewrite E, E'. cbn [snd] in *.
  assert (Hsame :
    conversation_history (self (evolved fs out
      {| self := switched (current_prompt (self s)) instruction
                   (evolved (files (world s))
                      ((NL ++ py "✨ 对话历史已清空" ++ NL) ++ NL)
                      {| self := with_history (self s) []; world := world s |});
         world := world (evolved (files (world s))
                      ((NL ++ py "✨ 对话历史已清空" ++ NL) ++ NL)
                      {| self := with_history (self s) []; world := world s |}) |}))
    = log_turns (world s) (log_file_name (current_prompt (self s)))).
  { apply log_turns_same; reflexivity. }
  split; [exact Hsame|]. split; [exact Hsame|].
  split; [exact Hlog|].
  intros Hagree. rewrite Hagree. exact Hsame.
Qed.

(** C6 as the specification words it fails: after an answer of two lines
    the turns held before the clear are not the ones the switch brings
    back. *)
Lemma C6_counterexample :
  __init__ ex_prompts ex_default empty_world = Ok ex_state /\
  conversation_history (self ex_chatting)
  = [turn USER (py "hi"); turn MODEL (py "line one" ++ NL ++ py "line two")] /\
  conversation_history
    (self (snd (switch_prompt ex_prompts (py "default")
                  (snd (clear_history ex_chatting)))))
  = [turn USER (py "hi"); turn MODEL (py "line one")] /\
  conversation_history
    (self (snd (switch_prompt ex_prompts (py "default")
                  (snd (clear_history ex_chatting)))))
  <> conversation_history (self ex_chatting).
Proof.
  split; [vm_compute; reflexivity|].
  split; [vm_compute; reflexivity|].
  split; [vm_compute; reflexivity|].
  vm_compute. discriminate.
Qed.

(** ** The way through the log and back (claim C2) *)

Section RoundTrip.
Import Str StrFacts.

Ltac literal_line :=
  vm_compute; repeat (constructor; [split; discriminate|]); constructor.

Lemma digits_line (d : Decimal.uint) : Forall line_char (digits d).
Proof.
  induction d; simpl; constructor; try assumption; split; discriminate.
Qed.

Lemma zfill_line (w : nat) (s : pystr) :
  Forall line_char s -> Forall line_char (zfill w s).
Proof.
  intros H. unfold zfill. apply Forall_app. split; [|exact H].
  induction (w - length s) as [|n IH]; simpl; constructor;
    [split; discriminate | exact IH].
Qed.

Lemma of_N_line (n : N) : Forall line_char (of_N n).
Proof. apply digits_line. Qed.

Lemma strftime_line (now : datetime) : Forall line_char (strftime now).
Proof.
  unfold strftime.
  repeat (apply Forall_app; split;
          [first [apply zfill_line, of_N_line | literal_line]|]).
  apply zfill_line, of_N_line.
Qed.

Lemma line_char_of_contains (s : pystr) :
  contains s [10%N] = false -> contains s [13%N] = false -> Forall line_char s.
Proof.
  intros H10 H13. apply contains_char in H10. apply contains_char in H13.
  induction s as [|c s IH]; constructor;
    inversion H10; inversion H13; subst; [split; assumption | auto].
Qed.

Lemma line_char_no (c : N) (s : pystr) :
  c = 10%N \/ c = 13%N -> Forall line_char s -> Forall (fun x => x <> c) s.
Proof.
  intros Hc H. eapply Forall_impl; [exact H|].
  intros x [H10 H13]. destruct Hc; subst; assumption.
Qed.

Lemma marker_of_line (role : pystr) : Forall line_char (marker_of role).
Proof. unfold marker_of. destruct (decide _); literal_line. Qed.

Lemma universal_newlines_id (s : pystr) :
  Forall (fun x => x <> 13%N) s -> universal_newlines s = s.
Proof.
  induction 1 as [|c s Hc _ IH]; [reflexivity|].
  cbn [universal_newlines].
  destruct (N.eqb_spec c 13) as [->|_]; [congruence|].
  rewrite IH. reflexivity.
Qed.

Lemma log_entry_shape (now : datetime) (role message rest : pystr) :
  log_entry now role message ++ rest =
  10%N :: text_line role message ++ 10%N :: time_line now ++ 10%N :: rest.
Proof.
  unfold log_entry, text_line, time_line, NL.
  change (py " ") with [32%N]. change (py "*") with [42%N].
  rewrite <- !app_assoc. reflexivity.
Qed.

Lemma text_line_chars (role message : pystr) :
  Forall line_char message -> Forall line_char (text_line role message).
Proof.
  intros H. unfold text_line. apply Forall_app. split; [apply marker_of_line|].
  constructor; [split; discriminate | exact H].
Qed.

Lemma time_line_chars (now : datetime) : Forall line_char (time_line now).
Proof.
  unfold time_line. apply Forall_app. split; [literal_line|].
  apply Forall_app. split; [apply strftime_line | literal_line].
Qed.

Lemma log_entry_chars (now : datetime) (role message : pystr) :
  Forall line_char message ->
  Forall (fun x => x <> 13%N) (log_entry now role message).
Proof.
  intros H. rewrite <- (app_nil_r (log_entry now role message)), log_entry_shape.
  constructor; [discriminate|]. apply Forall_app. split.
  - apply line_char_no; [right; reflexivity | apply text_line_chars, H].
  - constructor; [discriminate|]. apply Forall_app. split.
    + apply line_char_no; [right; reflexivity | apply time_line_chars].
    + constructor; [discriminate | constructor].
Qed.

Lemma split_log_entry (now : datetime) (role message rest : pystr) :
  Forall line_char message ->
  split 10 (log_entry now role message ++ rest) =
  [] :: text_line role message :: time_line now :: split 10 rest.
Proof.
  intros H. rewrite log_entry_shape.
  cbn [split]. rewrite N.eqb_refl.
  rewrite split_app_sep
    by (apply line_char_no; [left; reflexivity | apply text_line_chars, H]).
  rewrite split_app_sep
    by (apply line_char_no; [left; reflexivity | apply time_line_chars]).
  reflexivity.
Qed.

Lemma line_turns_text_line (role text : pystr) :
  role = USER \/ role = MODEL ->
  plain_text role text ->
  line_turns (text_line role text) = [turn role text].
Proof.
  intros Hrole (_ & _ & Hne & Hstrip & Hmarker & _).
  assert (Htext : turn_of_text role text = [turn role text]).
  { unfold turn_of_text. destruct text; [congruence | reflexivity]. }
  unfold text_line.
  destruct Hrole as [-> | ->].
  - change (marker_of USER) with USER_MARKER in *.
    rewrite line_turns_user, replace_absent; [| discriminate |].
    + rewrite strip_space_cons by reflexivity. rewrite Hstrip. exact Htext.
    + cbn [contains]. rewrite Hmarker. reflexivity.
  - change (marker_of MODEL) with AI_MARKER in *.
    rewrite line_turns_ai, replace_absent; [| discriminate |].
    + rewrite strip_space_cons by reflexivity. rewrite Hstrip. exact Htext.
    + cbn [contains]. rewrite Hmarker. reflexivity.
Qed.

Lemma line_turns_time_line (now : datetime) : line_turns (time_line now) = [].
Proof. apply line_turns_timestamp. unfold timestamp_line, time_line. apply startswith_app. Qed.

Lemma plain_text_line (role text : pystr) :
  plain_text role text -> Forall line_char text.
Proof. intros (H10 & H13 & _). apply line_char_of_contains; assumption. Qed.

Lemma reconcile_entries (turns : list (datetime * pystr * pystr)) :
  Forall plain_turn turns ->
  reconcile (flat_map entry_of turns) = map turn_of turns.
Proof.
  intros H. rewrite reconcile_lines.
  induction H as [|[[now role] text] turns [Hrole Hplain] _ IH]; [reflexivity|].
  cbn [flat_map map entry_of turn_of].
  rewrite split_log_entry by (apply (plain_text_line role), Hplain).
  cbn [flat_map]. rewrite IH.
  rewrite (line_turns_text_line role text Hrole Hplain), line_turns_time_line.
  reflexivity.
Qed.

Lemma entries_chars (turns : list (datetime * pystr * pystr)) :
  Forall plain_turn turns ->
  Forall (fun x => x <> 13%N) (flat_map entry_of turns).
Proof.
  induction 1 as [|[[now role] text] turns [_ Hplain] _ IH]; [constructor|].
  cbn [flat_map entry_of]. apply Forall_app. split; [|exact IH].
  apply log_entry_chars, (plain_text_line role), Hplain.
Qed.

Lemma log_turns_default (w : World) (path : pystr) :
  read_error w path = None ->
  log_turns w path = reconcile (universal_newlines (default [] (files w !! path))).
Proof.
  intros H. unfold log_turns, path_exists, read_text. rewrite H.
  destruct (files w !! path); reflexivity.
Qed.

Lemma encodable_app (a b : pystr) :
  Utf8.encodable (a ++ b) = Utf8.encodable a && Utf8.encodable b.
Proof. apply forallb_app. Qed.

Lemma digits_encodable (d : Decimal.uint) : Utf8.encodable (digits d) = true.
Proof. induction d; simpl; try reflexivity; exact IHd. Qed.

Lemma zfill_encodable (w : nat) (s : pystr) :
  Utf8.encodable s = true -> Utf8.encodable (zfill w s) = true.
Proof.
  intros H. unfold zfill. rewrite encodable_app, H, andb_true_r.
  induction (w - length s) as [|n IH]; [reflexivity | exact IH].
Qed.

Lemma strftime_encodable (now : datetime) : Utf8.encodable (strftime now) = true.
Proof.
  unfold strftime.
  rewrite !encodable_app, !zfill_encodable by apply digits_encodable.
  reflexivity.
Qed.

(** A record can be written when its text can. *)
Lemma log_entry_encodable (now : datetime) (role message : pystr) :
  Utf8.encodable message = true ->
  Utf8.encodable (log_entry now role message) = true.
Proof.
  intros H. unfold log_entry, marker_of.
  rewrite !encodable_app, H, strftime_encodable.
  destruct (decide (role = USER)); reflexivity.
Qed.

Lemma kept_log_entry (now : datetime) (role message : pystr) :
  Utf8.encodable message = true ->
  kept (log_entry now role message) = log_entry now role message.
Proof. intros H. unfold kept. rewrite (log_entry_encodable _ _ _ H). reflexivity. Qed.

Lemma plain_text_encodable (role text : pystr) :
  plain_text role text -> Utf8.encodable text = true.
Proof. intros (_ & _ & _ & _ & _ & H). exact H. Qed.

Lemma kept_log_entry_lost (now : datetime) (role message : pystr) :
  Utf8.encodable message = false ->
  kept (log_entry now role message) = [].
Proof.
  intros H. unfold kept, log_entry.
  rewrite !encodable_app, H, !andb_false_r, ?andb_false_l. 
  rewrite ?andb_false_r. reflexivity.
Qed.

Lemma appendTurn_run (now : datetime) (role text : pystr) (s : State) :
  write_error (world s) (chat_log_file (self s)) = None ->
  Utf8.encodable text = true ->
  appendTurn now role text s =
  (tt, evolved (<[chat_log_file (self s) :=
                    default [] (files (world s) !! chat_log_file (self s)) ++
                    log_entry now role text]> (files (world s))) []
         (add_turns [turn role text] s)).
Proof.
  intros Hw Henc. unfold appendTurn, mbind, M_bind.
  rewrite add_message_run, _save_to_log_run.
  unfold appended, append_text.
  cbn [self world add_turns with_history chat_log_file write_error files].
  rewrite Hw, (kept_log_entry _ _ _ Henc), (log_entry_encodable _ _ _ Henc).
  reflexivity.
Qed.

Lemma appendTurns_run (turns : list (datetime * pystr * pystr)) (s : State) :
  write_error (world s) (chat_log_file (self s)) = None ->
  Forall plain_turn turns ->
  exists fs,
    appendTurns turns s = (tt, evolved fs [] (add_turns (map turn_of turns) s)) /\
    default [] (fs !! chat_log_file (self s)) =
    default [] (files (world s) !! chat_log_file (self s)) ++ flat_map entry_of turns.
Proof.
  unfold appendTurns. intros Hw Hplain. revert s Hw.
  induction Hplain as [|[[now role] text] turns [_ Htext] _ IH]; intros s Hw.
  - exists (files (world s)). cbn [for_each map flat_map].
    rewrite add_turns_nil, <- evolved_refl, app_nil_r. split; reflexivity.
  - cbn [for_each map flat_map entry_of turn_of].
    assert (Henc : Utf8.encodable text = true) by apply Htext.
    unfold mbind, M_bind. rewrite (appendTurn_run now role text s Hw Henc).
    match goal with
    | |- context [for_each turns _ ?t] => destruct (IH t Hw) as (fs & E & Hfs)
    end.
    rewrite E. exists fs. split.
    + unfold evolved, add_turns, with_history.
      cbn [self world conversation_history stdout].
      rewrite <- !app_assoc. reflexivity.
    + cbn [self world evolved files chat_log_file add_turns with_history] in Hfs.
      rewrite Hfs, lookup_insert_eq.
      change (default [] (Some ?x)) with x.
      rewrite <- app_assoc. reflexivity.
Qed.

(** C2, as the code has it: starting from an empty or absent log, append
    turns whose roles are "user" or "model" and whose texts are plain: one
    line, not empty, without white space at either end, without the marker
    of their role and without a lone surrogate (a text with one is not
    written).  Then reconciling the log text, and reading the
    log back through the file, give exactly these turns, role and text, in
    order, as many as were appended; the history in memory gained the same
    turns. *)
Theorem C2_round_trip (turns : list (datetime * pystr * pystr)) (s : State) :
  default [] (files (world s) !! chat_log_file (self s)) = [] ->
  write_error (world s) (chat_log_file (self s)) = None ->
  read_error (world s) (chat_log_file (self s)) = None ->
  Forall plain_turn turns ->
  reconcile (default [] (files (world (snd (appendTurns turns s)))
                           !! chat_log_file (self s)))
  = map turn_of turns /\
  log_turns (world (snd (appendTurns turns s))) (chat_log_file (self s))
  = map turn_of turns /\
  length (log_turns (world (snd (appendTurns turns s))) (chat_log_file (self s)))
  = length turns /\
  conversation_history (self (snd (appendTurns turns s)))
  = conversation_history (self s) ++ map turn_of turns.
Proof.
  intros Hempty Hw Hr Hplain.
  destruct (appendTurns_run turns s Hw Hplain) as (fs & E & Hfs).
  rewrite E. cbn [snd]. rewrite Hempty in Hfs. cbn [app] in Hfs.
  assert (Hrec : reconcile (default [] (fs !! chat_log_file (self s)))
                 = map turn_of turns).
  { rewrite Hfs. apply reconcile_entries, Hplain. }
  assert (Hlog : log_turns (world (evolved fs [] (add_turns (map turn_of turns) s)))
                   (chat_log_file (self s)) = map turn_of turns).
  { rewrite log_turns_default by exact Hr.
    cbn [world evolved files]. rewrite Hfs.
    rewrite universal_newlines_id by (apply entries_chars, Hplain).
    apply reconcile_entries, Hplain. }
  split; [exact Hrec|]. split; [exact Hlog|].
  split; [rewrite Hlog; apply length_map | reflexivity].
Qed.

End RoundTrip.

(** C2 as the specification words it fails: a text of two lines comes back
    as its first line, and an empty text does not come back at all. *)
Lemma C2_counterexample :
  reconcile (default [] (files (world (snd (appendTurns
      [(ex_now, MODEL, py "line one" ++ NL ++ py "line two")] ex_state)))
      !! chat_log_file (self ex_state)))
  = [turn MODEL (py "line one")] /\
  reconcile (default [] (files (world (snd (appendTurns
      [(ex_now, MODEL, py "line one" ++ NL ++ py "line two")] ex_state)))
      !! chat_log_file (self ex_state)))
  <> map turn_of [(ex_now, MODEL, py "line one" ++ NL ++ py "line two")] /\
  length (reconcile (default [] (files (world (snd (appendTurns
      [(ex_now, USER, [])] ex_state)))
      !! chat_log_file (self ex_state)))) = 0%nat.
Proof.
  split; [vm_compute; reflexivity|].
  split; [vm_compute; discriminate | vm_compute; reflexivity].
Qed.

(** ** The statements at concrete inputs *)

Example py_marker :
  py "**😊 你:**" = [42; 42; 128522; 32; 20320; 58; 42; 42]%N.
Proof. reflexivity. Qed.

Example replace_no_overlap :
  Str.replace (py "xabab-ababab") (py "abab") (py "_") = py "x_-_ab".
Proof. reflexivity. Qed.

Example strip_both_ends : Str.strip (py "  a b  ") = py "a b".
Proof. reflexivity. Qed.

Example lower_ascii : Str.lower (py "Quota RATE") = py "quota rate".
Proof. reflexivity. Qed.

Example strftime_sample : strftime ex_now = py "2024-01-01 00:00:01".
Proof. reflexivity. Qed.

(** The sample log of the specification. *)
Example reconcile_sample :
  reconcile (py "**😊 你:** hello" ++ NL ++ py "*time: 2024-01-01 00:00:00*" ++ NL ++
             py "**🤖 AI:** hi there" ++ NL ++ py "*time: 2024-01-01 00:00:01*")
  = [turn USER (py "hello"); turn MODEL (py "hi there")].
Proof. reflexivity. Qed.

Example marker_mid_line : reconcile (py "see **😊 你:** hello") = [].
Proof. reflexivity. Qed.

Lemma C1_witness :
  failure (request (fun _ _ _ => Fail (py "429 rate limit")) (py "hi") ex_state)
  = Some (py "429 rate limit") /\
  fst (get_response (fun _ _ _ => Fail (py "429 rate limit"))
         ex_now ex_now (py "hi") ex_state)
  = error_msg (classify (py "429 rate limit")) (py "429 rate limit").
Proof.
  split; [reflexivity|].
  apply (C1_classification_order (fun _ _ _ => Fail (py "429 rate limit"))
           ex_now ex_now (py "hi") ex_state (py "429 rate limit")).
  reflexivity.
Defined.

Lemma C2_witness :
  default [] (files (world ex_state) !! chat_log_file (self ex_state)) = [] /\
  write_error (world ex_state) (chat_log_file (self ex_state)) = None /\
  read_error (world ex_state) (chat_log_file (self ex_state)) = None /\
  Forall plain_turn [(ex_now, USER, py "hello"); (ex_now, MODEL, py "hi there")] /\
  log_turns
    (world (snd (appendTurns
       [(ex_now, USER, py "hello"); (ex_now, MODEL, py "hi there")] ex_state)))
    (chat_log_file (self ex_state))
  = map turn_of [(ex_now, USER, py "hello"); (ex_now, MODEL, py "hi there")].
Proof.
  assert (Hplain : Forall plain_turn
            [(ex_now, USER, py "hello"); (ex_now, MODEL, py "hi there")]).
  { repeat constructor; try reflexivity; vm_compute; discriminate. }
  split; [reflexivity|]. split; [reflexivity|]. split; [reflexivity|].
  split; [exact Hplain|].
  apply (C2_round_trip
           [(ex_now, USER, py "hello"); (ex_now, MODEL, py "hi there")] ex_state);
    [reflexivity | reflexivity | reflexivity | exact Hplain].
Defined.

Lemma C3_witness :
  Str.contains (py " hello") USER_MARKER = false /\
  line_turns (USER_MARKER ++ py " hello") = turn_of_text USER (Str.strip (py " hello")).
Proof.
  split; [reflexivity|].
  apply (C3_reconcile_scans_lines []). reflexivity.
Defined.

Lemma C4_witness :
  forallb (fun l => blank_line l || timestamp_line l)
    (Str.split 10 (NL ++ time_line ex_now ++ NL ++ py "  " ++ NL)) = true /\
  reconcile (NL ++ time_line ex_now ++ NL ++ py "  " ++ NL) = [].
Proof.
  split; [reflexivity|].
  apply C4_nothing_to_reconcile. reflexivity.
Defined.

Lemma C5_witness :
  dict_has ex_prompts (py "nonexistent") = false /\
  self (snd (switch_prompt ex_prompts (py "nonexistent") ex_chatting))
  = self ex_chatting.
Proof.
  split; [reflexivity|].
  apply (C5_switch_rejected ex_prompts ex_default (py "nonexistent") ex_chatting).
  reflexivity.
Defined.

Lemma C6_witness :
  dict_get ex_prompts (current_prompt (self ex_chatting))
  = Some (py "You are a helpful assistant.") /\
  conversation_history
    (self (snd (switch_prompt ex_prompts (current_prompt (self ex_chatting))
                  (snd (clear_history ex_chatting)))))
  = log_turns (world ex_chatting) (log_file_name (current_prompt (self ex_chatting))).
Proof.
  split; [reflexivity|].
  apply (C6_clear_then_switch ex_prompts (py "You are a helpful assistant.")
           ex_chatting).
  reflexivity.
Defined.

Lemma C7_witness :
  failure (request (fun _ _ _ => Fail (py "connection reset")) (py "hi") ex_state)
  = Some (py "connection reset") /\
  self (snd (get_response (fun _ _ _ => Fail (py "connection reset"))
               ex_now ex_now (py "hi") ex_state))
  = with_history (self ex_state)
      (conversation_history (self ex_state) ++ [turn USER (py "hi")]).
Proof.
  split; [reflexivity|].
  destruct (C7_failed_submit (fun _ _ _ => Fail (py "connection reset"))
              ex_now ex_now (py "hi") ex_state) as [Hfail _].
  destruct (Hfail (py "connection reset")) as (_ & Hself & _);
    [reflexivity | exact Hself].
Defined.

Lemma C8_witness :
  read_text (set_files empty_world (<[LAST_PROMPT := py "coder" ++ NL]> ∅)) LAST_PROMPT
  = Ok (py "coder" ++ NL) /\
  dict_has ex_prompts (Str.strip (py "coder" ++ NL)) = true /\
  exists name,
    _load_last_prompt ex_prompts ex_default
      (set_files empty_world (<[LAST_PROMPT := py "coder" ++ NL]> ∅)) = Ok name /\
    name = py "coder".
Proof.
  split; [reflexivity|]. split; [reflexivity|].
  destruct (C8_load_last_prompt_total ex_prompts ex_default
              (set_files empty_world (<[LAST_PROMPT := py "coder" ++ NL]> ∅)))
    as (name & E & _ & _ & _ & Hkey & _).
  exists name. split; [exact E|].
  apply (Hkey (py "coder" ++ NL)); reflexivity.
Defined.

(** ** Further properties of the reconciler *)

Section ReconcilerFacts.
Import Str StrFacts.

Lemma split_cons_shape (sep : N) (s : pystr) : exists l ls, split sep s = l :: ls.
Proof.
  induction s as [|c s (l & ls & IH)]; simpl; [eauto|].
  destruct (c =? sep)%N; [eauto|]. rewrite IH. eauto.
Qed.

Lemma split_app (sep : N) (a b : pystr) :
  split sep (a ++ sep :: b) = split sep a ++ split sep b.
Proof.
  induction a as [|c a IH]; simpl.
  - rewrite N.eqb_refl. reflexivity.
  - destruct (c =? sep)%N; rewrite IH; [reflexivity|].
    destruct (split_cons_shape sep a) as (l & ls & ->). reflexivity.
Qed.

Lemma split_lines_no_sep (sep : N) (s : pystr) :
  Forall (Forall (fun x => x <> sep)) (split sep s).
Proof.
  induction s as [|c s IH]; simpl.
  - repeat constructor.
  - destruct (N.eqb_spec c sep) as [->|Hne]; [constructor; [constructor | exact IH]|].
    destruct (split sep s) as [|l ls]; [repeat constructor; exact Hne|].
    inversion IH; subst. constructor; [constructor; assumption | assumption].
Qed.

Lemma replace_scan_keeps (P : N -> Prop) (old : pystr) (skip : nat) (s : pystr) :
  Forall P s -> Forall P (replace_scan old [] skip s).
Proof.
  intros H. revert skip. induction H as [|c s Hc Hs IH]; intros skip; [constructor|].
  cbn [replace_scan]. destruct skip; [|apply IH].
  destruct (startswith (c :: s) old); [apply IH | constructor; [exact Hc | apply IH]].
Qed.

Lemma replace_keeps (P : N -> Prop) (s old : pystr) :
  old <> [] -> Forall P s -> Forall P (replace s old []).
Proof.
  destruct old; [congruence|]. intros _ H. apply replace_scan_keeps, H.
Qed.

Lemma lstrip_keeps (P : N -> Prop) (s : pystr) : Forall P s -> Forall P (lstrip s).
Proof.
  induction 1 as [|c s Hc Hs IH]; simpl; [constructor|].
  destruct (isspace c); [exact IH | constructor; assumption].
Qed.

Lemma strip_keeps (P : N -> Prop) (s : pystr) : Forall P s -> Forall P (strip s).
Proof.
  intros H. unfold strip, rstrip.
  apply Forall_rev, lstrip_keeps, Forall_rev, lstrip_keeps, H.
Qed.

Lemma lstrip_fixed (s : pystr) : lstrip (lstrip s) = lstrip s.
Proof.
  induction s as [|c s IH]; simpl; [reflexivity|].
  destruct (isspace c) eqn:Hc; [exact IH|]. simpl. rewrite Hc. reflexivity.
Qed.

Lemma lstrip_suffix (s : pystr) : exists p, s = p ++ lstrip s.
Proof.
  induction s as [|c s [p IH]]; simpl; [exists []; reflexivity|].
  destruct (isspace c); [|exists []; reflexivity].
  exists (c :: p). simpl. rewrite <- IH. reflexivity.
Qed.

Lemma lstrip_head (s : pystr) (c : N) (t : pystr) :
  lstrip s = c :: t -> isspace c = false.
Proof.
  induction s as [|a s IH]; simpl; [discriminate|].
  destruct (isspace a) eqn:Ha; [exact IH|].
  intros H. injection H as <- _. exact Ha.
Qed.

(** Trimming a trimmed text changes nothing. *)
Lemma strip_strip (s : pystr) : strip (strip s) = strip s.
Proof.
  unfold strip, rstrip.
  destruct (lstrip_suffix (rev (lstrip s))) as [p Hp].
  set (r := lstrip (rev (lstrip s))) in *.
  assert (Hu : lstrip s = rev r ++ rev p).
  { rewrite <- rev_app_distr, <- Hp, rev_involutive. reflexivity. }
  assert (Hl : lstrip (rev r) = rev r).
  { destruct (rev r) as [|c v] eqn:Hv; [reflexivity|].
    simpl. rewrite (lstrip_head s c (v ++ rev p)); [reflexivity|].
    rewrite Hu. reflexivity. }
  rewrite Hl, rev_involutive. unfold r. rewrite lstrip_fixed. reflexivity.
Qed.

Lemma line_turns_reconciled (line : pystr) :
  Forall (fun x => x <> 10%N) line -> Forall reconciled_turn (line_turns line).
Proof.
  intros Hline.
  assert (Htext : forall r m, (r = USER \/ r = MODEL) -> m <> [] ->
            Forall reconciled_turn (turn_of_text r (strip (replace line m [])))).
  { intros r m Hr Hm. unfold turn_of_text.
    destruct (strip (replace line m [])) as [|c t] eqn:E; constructor; [|constructor].
    split; [exact Hr|]. exists (c :: t).
    split; [reflexivity|]. split; [discriminate|]. split.
    - apply contains_char. rewrite <- E.
      apply strip_keeps, replace_keeps; assumption.
    - rewrite <- E. apply strip_strip. }
  unfold line_turns.
  destruct (startswith line USER_MARKER);
    [apply Htext; [left; reflexivity | discriminate]|].
  destruct (startswith line AI_MARKER);
    [apply Htext; [right; reflexivity | discriminate] | constructor].
Qed.

Lemma reconcile_app_nl (a b : pystr) :
  reconcile (a ++ 10%N :: b) = reconcile a ++ reconcile b.
Proof.
  rewrite !reconcile_lines, split_app. apply flat_map_app.
Qed.

Lemma reconcile_nl (b : pystr) : reconcile (10%N :: b) = reconcile b.
Proof. apply (reconcile_app_nl [] b). Qed.

(** X10: the lines of a log are reconciled one by one, so the turns of a
    text cut at a line feed are the turns of the first piece followed by
    the turns of the second; a line feed in front changes nothing. *)
Theorem X10_reconcile_piecewise (a b : pystr) :
  reconcile (a ++ 10%N :: b) = reconcile a ++ reconcile b /\
  reconcile (10%N :: b) = reconcile b.
Proof.
  split; [apply reconcile_app_nl | apply reconcile_nl].
Qed.

(** X12: whatever the log holds, every turn read back has the role "user"
    or "model", one part, and a text that is not empty, is a single line
    and has no white space at either end. *)
Theorem X12_reconciled_turns_well_formed (content : pystr) :
  Forall reconciled_turn (reconcile content).
Proof.
  rewrite reconcile_lines.
  pose proof (split_lines_no_sep 10 content) as H.
  induction H as [|line lines Hline _ IH]; [constructor|].
  cbn [flat_map]. apply Forall_app. split; [|exact IH].
  apply line_turns_reconciled, Hline.
Qed.

End ReconcilerFacts.

(** ** Further properties of a submitted turn *)

Lemma moved_moved (b1 b2 : ChatBot) (fs1 fs2 : gmap pystr pystr) (o1 o2 : pystr)
    (s : State) :
  moved b2 fs2 o2 (moved b1 fs1 o1 s) = moved b2 fs2 (o1 ++ o2) s.
Proof. unfold moved. cbn. rewrite app_assoc. reflexivity. Qed.

Lemma evolved_moved (fs : gmap pystr pystr) (out : pystr) (s : State) :
  evolved fs out s = moved (self s) fs out s.
Proof. reflexivity. Qed.

Lemma appended_twice (w w' : World) (path d1 d2 : pystr) :
  files w' = appended w path d1 ->
  write_error w' = write_error w ->
  appended w' path d2 = appended w path (d1 ++ d2).
Proof.
  unfold appended. intros -> ->.
  destruct (write_error w path); [reflexivity|].
  rewrite lookup_insert_eq, insert_insert_eq. cbn. rewrite app_assoc. reflexivity.
Qed.

Lemma _save_to_log_appended (now : datetime) (role message : pystr) (s : State) :
  exists out,
    _save_to_log now role message s =
    (tt, evolved (appended (world s) (chat_log_file (self s))
                    (kept (log_entry now role message))) out s).
Proof. rewrite _save_to_log_run. eauto. Qed.

Lemma get_response_world (svc : Service) (now_user now_model : datetime)
    (user_input : pystr) (s : State) :
  exists out,
    get_response svc now_user now_model user_input s =
    (reply (request svc user_input s),
     moved (with_history (self s)
              (conversation_history (self s) ++
               turn USER user_input :: model_turns (request svc user_input s)))
           (appended (world s) (chat_log_file (self s))
              (kept (log_entry now_user USER user_input) ++
               model_entry now_model (request svc user_input s)))
           out s).
Proof.
  unfold get_response, mbind, M_bind. rewrite add_message_run.
  destruct (_save_to_log_appended now_user USER user_input
              (add_turns [turn USER user_input] s)) as (o1 & E1).
  rewrite E1. unfold get_self.
  change (svc _ _ _) with (request svc user_input s).
  match goal with
  | |- context [consume ?st ?a ?t] => destruct (consume_run st a t) as (o2 & E2)
  end.
  rewrite E2. unfold reply, model_turns, model_entry.
  destruct (failure (request svc user_input s)) as [e|].
  - rewrite print_run. eexists. f_equal.
    unfold moved, evolved, add_turns, with_history.
    cbn [self world files read_error write_error stdout model
         conversation_history current_prompt chat_log_file config app].
    rewrite app_nil_r, <- !app_assoc. reflexivity.
  - cbn [app]. unfold turn_of_text.
    destruct (truthy (Some (answer (request svc user_input s)))).
    + rewrite add_message_run.
      match goal with
      | |- context [_save_to_log ?n ?r ?m ?t] =>
          destruct (_save_to_log_appended n r m t) as (o3 & E3)
      end.
      rewrite E3. unfold mret, M_ret. eexists. f_equal.
      match goal with
      | |- context [appended ?w ?p (kept (log_entry now_model ?r ?m))] =>
          rewrite (appended_twice (world s) w p
                     (kept (log_entry now_user USER user_input))
                     (kept (log_entry now_model r m)) eq_refl eq_refl)
      end.
      unfold moved, evolved, add_turns, with_history.
      cbn [self world files read_error write_error stdout model
           conversation_history current_prompt chat_log_file config app].
      rewrite <- !app_assoc. reflexivity.
    + unfold mret, M_ret. eexists. f_equal.
      unfold moved, evolved, add_turns, with_history.
      cbn [self world files read_error write_error stdout model
           conversation_history current_prompt chat_log_file config app].
      rewrite app_nil_r, <- !app_assoc. reflexivity.
Qed.

Lemma log_file_name_inj (a b : pystr) : log_file_name a = log_file_name b -> a = b.
Proof.
  unfold log_file_name. intros H.
  apply app_inv_head in H. apply app_inv_tail in H. exact H.
Qed.

Lemma appended_other (w : World) (path data other : pystr) :
  other <> path -> appended w path data !! other = files w !! other.
Proof.
  intros Hne. unfold appended. destruct (write_error w path); [reflexivity|].
  apply lookup_insert_ne. congruence.
Qed.

Lemma appended_grows (w : World) (path data : pystr) :
  exists suffix,
    default [] (appended w path data !! path) = default [] (files w !! path) ++ suffix.
Proof.
  unfold appended. destruct (write_error w path).
  - exists []. rewrite app_nil_r. reflexivity.
  - exists data. rewrite lookup_insert_eq. reflexivity.
Qed.

Lemma reconcile_after_entries (old : pystr) (turns : list (datetime * pystr * pystr)) :
  Forall plain_turn turns ->
  reconcile (old ++ flat_map entry_of turns) = reconcile old ++ map turn_of turns.
Proof.
  intros H. destruct turns as [|[[now role] text] turns].
  - cbn [flat_map map]. rewrite !app_nil_r. reflexivity.
  - pose proof (reconcile_entries _ H) as Hall.
    cbn [flat_map entry_of] in *. unfold log_entry, NL in *.
    rewrite <- !app_assoc in *. cbn [app] in *.
    rewrite reconcile_nl in Hall.
    rewrite reconcile_app_nl, Hall. reflexivity.
Qed.

Lemma log_turns_after_entries (w w' : World) (path : pystr)
    (turns : list (datetime * pystr * pystr)) :
  read_error w path = None ->
  read_error w' = read_error w ->
  Str.contains (default [] (files w !! path)) [13%N] = false ->
  Forall plain_turn turns ->
  default [] (files w' !! path) = default [] (files w !! path) ++ flat_map entry_of turns ->
  log_turns w' path = log_turns w path ++ map turn_of turns.
Proof.
  intros Hr Hr' Hcr Hplain Hfiles.
  rewrite !log_turns_default by congruence. rewrite Hfiles.
  apply StrFacts.contains_char in Hcr.
  rewrite !universal_newlines_id;
    [apply reconcile_after_entries, Hplain | exact Hcr |].
  apply Forall_app. split; [exact Hcr | apply entries_chars, Hplain].
Qed.

(** X6: when the stream ends without failure and carries answer text,
    [get_response] returns that text and the history gains the user's turn
    followed by the model's turn.  If the log can be opened for writing,
    it gains of each of the two records all or nothing, in that order:
    both records when neither text holds a lone surrogate, and the
    model's record alone, an answer without its question, when only the
    user's text holds one. *)
Theorem X6_submit_answer (svc : Service) (now_user now_model : datetime)
    (user_input : pystr) (s : State) :
  failure (request svc user_input s) = None ->
  answer (request svc user_input s) <> [] ->
  fst (get_response svc now_user now_model user_input s)
  = answer (request svc user_input s) /\
  conversation_history (self (snd (get_response svc now_user now_model user_input s)))
  = conversation_history (self s) ++
    [turn USER user_input; turn MODEL (answer (request svc user_input s))] /\
  (write_error (world s) (chat_log_file (self s)) = None ->
   files (world (snd (get_response svc now_user now_model user_input s)))
     !! chat_log_file (self s)
   = Some (default [] (files (world s) !! chat_log_file (self s)) ++
           kept (log_entry now_user USER user_input) ++
           kept (log_entry now_model MODEL (answer (request svc user_input s))))) /\
  (write_error (world s) (chat_log_file (self s)) = None ->
   Utf8.encodable user_input = true ->
   Utf8.encodable (answer (request svc user_input s)) = true ->
   files (world (snd (get_response svc now_user now_model user_input s)))
     !! chat_log_file (self s)
   = Some (default [] (files (world s) !! chat_log_file (self s)) ++
           log_entry now_user USER user_input ++
           log_entry now_model MODEL (answer (request svc user_input s)))) /\
  (write_error (world s) (chat_log_file (self s)) = None ->
   Utf8.encodable user_input = false ->
   Utf8.encodable (answer (request svc user_input s)) = true ->
   files (world (snd (get_response svc now_user now_model user_input s)))
     !! chat_log_file (self s)
   = Some (default [] (files (world s) !! chat_log_file (self s)) ++
           log_entry now_model MODEL (answer (request svc user_input s)))).
Proof.
  intros Hf Ha.
  destruct (get_response_world svc now_user now_model user_input s) as (out & E).
  rewrite E. unfold reply, model_turns, model_entry, turn_of_text. rewrite Hf.
  destruct (answer (request svc user_input s)) as [|c t] eqn:Hans; [congruence|].
  cbn [fst snd moved self world files conversation_history with_history truthy].
  split; [reflexivity|]. split; [reflexivity|].
  split; [intros Hw; unfold appended; rewrite Hw; apply lookup_insert_eq|].
  split; intros Hw Hu Hm; unfold appended; rewrite Hw, lookup_insert_eq.
  - rewrite (kept_log_entry _ _ _ Hu), (kept_log_entry _ _ _ Hm). reflexivity.
  - rewrite (kept_log_entry_lost _ _ _ Hu), (kept_log_entry _ _ _ Hm). reflexivity.
Qed.

(** X7: what [get_response] returns and the object it leaves depend on the
    object and the service only, not on the files or on whether the log can
    be written; when the log cannot be written, no file is changed. *)
Theorem X7_submit_memory_apart_from_disk (svc : Service)
    (now_user now_model : datetime) (user_input : pystr) (s1 s2 : State) :
  self s1 = self s2 ->
  fst (get_response svc now_user now_model user_input s1)
  = fst (get_response svc now_user now_model user_input s2) /\
  self (snd (get_response svc now_user now_model user_input s1))
  = self (snd (get_response svc now_user now_model user_input s2)) /\
  (forall e, write_error (world s1) (chat_log_file (self s1)) = Some e ->
     files (world (snd (get_response svc now_user now_model user_input s1)))
     = files (world s1)).
Proof.
  intros Hself.
  destruct (get_response_world svc now_user now_model user_input s1) as (o1 & E1).
  destruct (get_response_world svc now_user now_model user_input s2) as (o2 & E2).
  rewrite E1, E2. unfold request. rewrite Hself.
  split; [reflexivity|]. split; [reflexivity|].
  intros e He. cbn [snd moved world files]. unfold appended.
  rewrite He. reflexivity.
Qed.

(** X8: [get_response] writes to the log of the object and nowhere else,
    and only at the end of it: every other file is as before, the old
    content of the log is a prefix of the new one, and the persona, the
    log binding and the configuration of the object are kept. *)
Theorem X8_submit_appends_to_own_log (svc : Service)
    (now_user now_model : datetime) (user_input : pystr) (s : State) :
  (forall path, path <> chat_log_file (self s) ->
     files (world (snd (get_response svc now_user now_model user_input s))) !! path
     = files (world s) !! path) /\
  (exists suffix,
     default [] (files (world (snd (get_response svc now_user now_model user_input s)))
                   !! chat_log_file (self s))
     = default [] (files (world s) !! chat_log_file (self s)) ++ suffix) /\
  current_prompt (self (snd (get_response svc now_user now_model user_input s)))
  = current_prompt (self s) /\
  chat_log_file (self (snd (get_response svc now_user now_model user_input s)))
  = chat_log_file (self s) /\
  config (self (snd (get_response svc now_user now_model user_input s)))
  = config (self s).
Proof.
  destruct (get_response_world svc now_user now_model user_input s) as (out & E).
  rewrite E. cbn [snd moved self world files].
  split; [intros path Hne; apply appended_other, Hne|].
  split; [apply appended_grows|].
  repeat split.
Qed.

(** X9: personas do not share logs.  Two names give the same log file
    only if they are the same name, so a turn submitted while the object is
    bound to one persona leaves what can be read back for any other
    persona as it was. *)
Theorem X9_personas_isolated (svc : Service) (now_user now_model : datetime)
    (user_input other : pystr) (s : State) :
  chat_log_file (self s) = log_file_name (current_prompt (self s)) ->
  other <> current_prompt (self s) ->
  log_file_name other <> chat_log_file (self s) /\
  log_turns (world (snd (get_response svc now_user now_model user_input s)))
    (log_file_name other)
  = log_turns (world s) (log_file_name other).
Proof.
  intros Hbound Hother.
  assert (Hne : log_file_name other <> chat_log_file (self s)).
  { rewrite Hbound. intros H. apply Hother, log_file_name_inj, H. }
  split; [exact Hne|].
  destruct (get_response_world svc now_user now_model user_input s) as (out & E).
  rewrite E. cbn [snd]. apply log_turns_same; [|reflexivity].
  cbn [moved world files]. apply appended_other, Hne.
Qed.

(** X11: on a log that can be written and read and holds no carriage
    return, appending plain turns (see C2) adds exactly these turns to what
    is read back, after the turns the log gave before. *)
Theorem X11_round_trip_on_existing_log (turns : list (datetime * pystr * pystr))
    (s : State) :
  write_error (world s) (chat_log_file (self s)) = None ->
  read_error (world s) (chat_log_file (self s)) = None ->
  Str.contains (default [] (files (world s) !! chat_log_file (self s))) [13%N] = false ->
  Forall plain_turn turns ->
  log_turns (world (snd (appendTurns turns s))) (chat_log_file (self s))
  = log_turns (world s) (chat_log_file (self s)) ++ map turn_of turns.
Proof.
  intros Hw Hr Hcr Hplain.
  destruct (appendTurns_run turns s Hw Hplain) as (fs & E & Hfs).
  rewrite E. cbn [snd].
  apply (log_turns_after_entries (world s)); try assumption; reflexivity.
Qed.

(** X13: a turn keeps memory and log in step.  If the history is what the
    log gives back, the log can be written and read and holds no carriage
    return, the user's text is plain, and so is the answer when there is
    one, then after [get_response] the history is again what the log gives
    back. *)
Theorem X13_submit_keeps_sync (svc : Service) (now_user now_model : datetime)
    (user_input : pystr) (s : State) :
  in_sync s ->
  write_error (world s) (chat_log_file (self s)) = None ->
  read_error (world s) (chat_log_file (self s)) = None ->
  Str.contains (default [] (files (world s) !! chat_log_file (self s))) [13%N] = false ->
  plain_text USER user_input ->
  (failure (request svc user_input s) = None ->
   answer (request svc user_input s) <> [] ->
   plain_text MODEL (answer (request svc user_input s))) ->
  in_sync (snd (get_response svc now_user now_model user_input s)).
Proof.
  intros Hsync Hw Hr Hcr Huser Hmodel. unfold in_sync in *.
  destruct (get_response_world svc now_user now_model user_input s) as (out & E).
  rewrite E. cbn [snd moved self world with_history conversation_history chat_log_file].
  set (st := request svc user_input s) in *.
  set (w' := {| files := appended (world s) (chat_log_file (self s))
                           (kept (log_entry now_user USER user_input) ++
                            model_entry now_model st);
                read_error := read_error (world s);
                write_error := write_error (world s);
                stdout := stdout (world s) ++ out |}).
  assert (Hturns : exists turns,
            Forall plain_turn turns /\
            kept (log_entry now_user USER user_input) ++ model_entry now_model st
            = flat_map entry_of turns /\
            turn USER user_input :: model_turns st = map turn_of turns).
  { rewrite (kept_log_entry _ _ _ (plain_text_encodable _ _ Huser)).
    unfold model_entry, model_turns, turn_of_text.
    destruct (failure st) as [e|] eqn:Hf.
    - exists [(now_user, USER, user_input)]. split; [|split; reflexivity].
      constructor; [|constructor]. split; [left; reflexivity | exact Huser].
    - destruct (answer st) as [|c t] eqn:Ha.
      + exists [(now_user, USER, user_input)]. split; [|split; reflexivity].
        constructor; [|constructor]. split; [left; reflexivity | exact Huser].
      + assert (Hplain : plain_text MODEL (c :: t))
          by (apply Hmodel; [reflexivity | discriminate]).
        exists [(now_user, USER, user_input); (now_model, MODEL, c :: t)].
        cbn [truthy].
        rewrite (kept_log_entry _ _ _ (plain_text_encodable _ _ Hplain)).
        split; [|split; [cbn [flat_map entry_of]; rewrite app_nil_r|]; reflexivity].
        constructor; [split; [left; reflexivity | exact Huser]|].
        constructor; [|constructor]. split; [right; reflexivity|].
        exact Hplain. }
  destruct Hturns as (turns & Hplain & Hentries & Hmap).
  rewrite Hmap, Hsync.
  symmetry. apply (log_turns_after_entries (world s) w'); try assumption;
    [reflexivity|].
  unfold w', appended. cbn [files]. rewrite Hw, lookup_insert_eq, Hentries.
  reflexivity.
Qed.

(** ** Further properties of start-up and persona switching *)

Section StartAndSwitch.

Variable SYSTEM_PROMPTS : list (pystr * pystr).
Variable DEFAULT_PROMPT : pystr.

Lemma dict_has_true (k : pystr) :
  dict_has SYSTEM_PROMPTS k = true ->
  exists instruction, dict_get SYSTEM_PROMPTS k = Some instruction.
Proof. unfold dict_has. destruct (dict_get _ _); [eauto | discriminate]. Qed.

Lemma dict_get_has (k instruction : pystr) :
  dict_get SYSTEM_PROMPTS k = Some instruction -> dict_has SYSTEM_PROMPTS k = true.
Proof. unfold dict_has. intros ->. reflexivity. Qed.

Lemma _load_last_prompt_cases (w : World) :
  (exists data,
     read_text w LAST_PROMPT = Ok data /\
     dict_has SYSTEM_PROMPTS (Str.strip data) = true /\
     _load_last_prompt SYSTEM_PROMPTS DEFAULT_PROMPT w = Ok (Str.strip data)) \/
  _load_last_prompt SYSTEM_PROMPTS DEFAULT_PROMPT w = Ok DEFAULT_PROMPT.
Proof.
  unfold _load_last_prompt, path_exists, read_text.
  destruct (files w !! LAST_PROMPT) as [data|]; [|right; reflexivity].
  destruct (read_error w LAST_PROMPT); [right; reflexivity|].
  destruct (dict_has SYSTEM_PROMPTS (Str.strip (universal_newlines data))) eqn:Hkey;
    [|right; reflexivity].
  left. exists (universal_newlines data). repeat split. exact Hkey.
Qed.

(** The object [__init__] builds for the persona [name]. *)
Lemma __init___run (w : World) (name : pystr) :
  _load_last_prompt SYSTEM_PROMPTS DEFAULT_PROMPT w = Ok name ->
  __init__ SYSTEM_PROMPTS DEFAULT_PROMPT w =
  match dict_get SYSTEM_PROMPTS name with
  | Some instruction =>
      Ok (snd (set_config (make_config instruction)
                 (snd (_load_chat_history
                         {| self := {| model := GEMINI; conversation_history := [];
                                       current_prompt := name;
                                       chat_log_file := log_file_name name;
                                       config := make_config [] |};
                            world := w |}))))
  | None => Raise name
  end.
Proof. intros H. unfold __init__. rewrite H. reflexivity. Qed.

Lemma __init___ok (w : World) (name instruction : pystr) :
  _load_last_prompt SYSTEM_PROMPTS DEFAULT_PROMPT w = Ok name ->
  dict_get SYSTEM_PROMPTS name = Some instruction ->
  exists out,
    __init__ SYSTEM_PROMPTS DEFAULT_PROMPT w =
    Ok (moved {| model := GEMINI;
                 conversation_history := log_turns w (log_file_name name);
                 current_prompt := name;
                 chat_log_file := log_file_name name;
                 config := make_config instruction |}
          (files w) out {| self := initial_bot; world := w |}).
Proof.
  intros Hload Hget. rewrite (__init___run w name Hload), Hget.
  match goal with
  | |- context [_load_chat_history ?t] =>
      destruct (_load_chat_history_turns t) as (out & E)
  end.
  rewrite E. exists out. reflexivity.
Qed.

Lemma __init___bound (w : World) :
  dict_has SYSTEM_PROMPTS DEFAULT_PROMPT = true ->
  exists s,
    __init__ SYSTEM_PROMPTS DEFAULT_PROMPT w = Ok s /\
    bound SYSTEM_PROMPTS (self s) /\
    in_sync s /\
    model (self s) = GEMINI /\
    files (world s) = files w /\
    write_error (world s) = write_error w.
Proof.
  intros Hdefault.
  assert (Hname : exists name instruction,
            _load_last_prompt SYSTEM_PROMPTS DEFAULT_PROMPT w = Ok name /\
            dict_get SYSTEM_PROMPTS name = Some instruction).
  { destruct (_load_last_prompt_cases w) as [(data & _ & Hkey & E)|E].
    - destruct (dict_has_true _ Hkey) as [i Hi]. eauto.
    - destruct (dict_has_true _ Hdefault) as [i Hi]. eauto. }
  destruct Hname as (name & instruction & Hload & Hget).
  destruct (__init___ok w name instruction Hload Hget) as (out & E).
  rewrite E. eexists. split; [reflexivity|].
  split; [split; [reflexivity | exists instruction; split; [exact Hget | reflexivity]]|].
  split; [|repeat split].
  unfold in_sync. cbn [moved self world conversation_history chat_log_file].
  symmetry. apply log_turns_same; reflexivity.
Qed.

(** X1: when the default persona is in the table, the constructor always
    succeeds.  The object it returns is bound to a persona of the table,
    its history is what the log of that persona gives back, its model name
    is the fixed one, and no file has been changed. *)
Theorem X1_init_succeeds (w : World) :
  dict_has SYSTEM_PROMPTS DEFAULT_PROMPT = true ->
  exists s,
    __init__ SYSTEM_PROMPTS DEFAULT_PROMPT w = Ok s /\
    bound SYSTEM_PROMPTS (self s) /\
    in_sync s /\
    model (self s) = GEMINI /\
    files (world s) = files w.
Proof.
  intros Hdefault.
  destruct (__init___bound w Hdefault) as (s & E & Hb & Hs & Hm & Hf & _).
  exists s. split; [exact E|]. split; [exact Hb|]. split; [exact Hs|].
  split; assumption.
Qed.

(** X2: when the default persona is not in the table and the selection
    file gives no name of the table (it is absent, cannot be read, or holds
    something else), the constructor raises [KeyError] with the default
    name as its key. *)
Theorem X2_init_key_error (w : World) :
  dict_has SYSTEM_PROMPTS DEFAULT_PROMPT = false ->
  (forall data, read_text w LAST_PROMPT = Ok data ->
     dict_has SYSTEM_PROMPTS (Str.strip data) = false) ->
  __init__ SYSTEM_PROMPTS DEFAULT_PROMPT w = Raise DEFAULT_PROMPT.
Proof.
  intros Hdefault Hstored.
  destruct (_load_last_prompt_cases w) as [(data & Hread & Hkey & _)|E].
  - rewrite (Hstored data Hread) in Hkey. discriminate.
  - rewrite (__init___run w DEFAULT_PROMPT E), (dict_has_get _ _ Hdefault).
    reflexivity.
Qed.

Lemma _save_last_prompt_selected (s : State) :
  exists out,
    _save_last_prompt s =
    (tt, evolved (selected (world s) (current_prompt (self s))) out s).
Proof.
  rewrite _save_last_prompt_run. eauto.
Qed.

Lemma selected_other (w : World) (name path : pystr) :
  path <> LAST_PROMPT -> selected w name !! path = files w !! path.
Proof.
  intros Hne. unfold selected. destruct (write_error w LAST_PROMPT); [reflexivity|].
  apply lookup_insert_ne. congruence.
Qed.

Lemma log_file_name_other (name : pystr) : log_file_name name <> LAST_PROMPT.
Proof. intros H. symmetry in H. exact (log_file_not_selection name H). Qed.

Lemma switch_prompt_moved (name instruction : pystr) (s : State) :
  dict_get SYSTEM_PROMPTS name = Some instruction ->
  exists out,
    switch_prompt SYSTEM_PROMPTS name s =
    (tt, moved (switched name instruction s) (selected (world s) name) out s).
Proof.
  intros Hget. unfold switch_prompt. rewrite Hget.
  unfold mbind, M_bind.
  unfold set_current_prompt, set_chat_log_file, set_config,
    set_conversation_history, mbind, M_bind, get_self, put_self.
  cbn [fst snd self world model conversation_history current_prompt
       chat_log_file config].
  match goal with
  | |- context [_save_last_prompt ?t] =>
      destruct (_save_last_prompt_selected t) as (o1 & E1)
  end.
  rewrite E1.
  cbn [fst snd self world model conversation_history current_prompt
       chat_log_file config evolved files read_error write_error stdout] in *.
  match goal with
  | |- context [_load_chat_history ?t] =>
      destruct (_load_chat_history_turns t) as (o2 & E2)
  end.
  rewrite E2.
  cbn [fst snd self world model conversation_history current_prompt
       chat_log_file config evolved files read_error write_error stdout
       add_turns with_history app] in *.
  rewrite !print_run.
  cbn [fst snd self world model conversation_history current_prompt
       chat_log_file config evolved files read_error write_error stdout].
  match goal with
  | |- context [log_turns ?w (log_file_name name)] =>
      assert (Hturns : log_turns w (log_file_name name)
                       = log_turns (world s) (log_file_name name))
  end.
  { apply log_turns_same; [|reflexivity].
    cbn [files]. apply selected_other, log_file_name_other. }
  rewrite Hturns.
  match goal with
  | |- context [if ?c then _ else _] => destruct c
  end;
    rewrite print_run; eexists; f_equal;
    unfold moved, evolved, switched, add_turns, with_history;
    cbn [fst snd self world model conversation_history current_prompt
         chat_log_file config files read_error write_error stdout app];
    rewrite <- !app_assoc; reflexivity.
Qed.

(** X3: a switch to a persona of the table binds the object to it: the
    persona, its log file and its configuration are set, and the history
    becomes what that log gives back, so memory and log agree.  The only
    file written is the selection: when it can be opened it holds the
    name, or nothing if the name has a lone surrogate and cannot be
    encoded; when it cannot be opened, the switch still takes place in
    memory and no file is changed. *)
Theorem X3_switch_accepted (name instruction : pystr) (s : State) :
  dict_get SYSTEM_PROMPTS name = Some instruction ->
  self (snd (switch_prompt SYSTEM_PROMPTS name s)) = switched name instruction s /\
  bound SYSTEM_PROMPTS (self (snd (switch_prompt SYSTEM_PROMPTS name s))) /\
  in_sync (snd (switch_prompt SYSTEM_PROMPTS name s)) /\
  (forall path, path <> LAST_PROMPT ->
     files (world (snd (switch_prompt SYSTEM_PROMPTS name s))) !! path
     = files (world s) !! path) /\
  (write_error (world s) LAST_PROMPT = None ->
   files (world (snd (switch_prompt SYSTEM_PROMPTS name s))) !! LAST_PROMPT
   = Some (kept name)) /\
  (forall e, write_error (world s) LAST_PROMPT = Some e ->
   files (world (snd (switch_prompt SYSTEM_PROMPTS name s))) = files (world s)).
Proof.
  intros Hget. destruct (switch_prompt_moved name instruction s Hget) as (out & E).
  rewrite E. cbn [snd moved self world files].
  split; [reflexivity|].
  split; [split; [reflexivity | exists instruction; split; [exact Hget | reflexivity]]|].
  split.
  { unfold in_sync. cbn [moved self world switched conversation_history chat_log_file].
    symmetry. apply log_turns_same; [|reflexivity].
    cbn [files]. apply selected_other, log_file_name_other. }
  split; [intros path Hne; apply selected_other, Hne|].
  unfold selected. split.
  - intros ->. apply lookup_insert_eq.
  - intros e ->. reflexivity.
Qed.

(** X4: switching twice to the same persona of the table gives the same
    object and the same files as switching once. *)
Theorem X4_switch_idempotent (name instruction : pystr) (s : State) :
  dict_get SYSTEM_PROMPTS name = Some instruction ->
  self (snd (switch_prompt SYSTEM_PROMPTS name
               (snd (switch_prompt SYSTEM_PROMPTS name s))))
  = self (snd (switch_prompt SYSTEM_PROMPTS name s)) /\
  files (world (snd (switch_prompt SYSTEM_PROMPTS name
                       (snd (switch_prompt SYSTEM_PROMPTS name s)))))
  = files (world (snd (switch_prompt SYSTEM_PROMPTS name s))).
Proof.
  intros Hget. destruct (switch_prompt_moved name instruction s Hget) as (o1 & E1).
  rewrite E1. cbn [snd].
  match goal with
  | |- context [switch_prompt _ name ?t] =>
      destruct (switch_prompt_moved name instruction t Hget) as (o2 & E2)
  end.
  rewrite E2. cbn [snd moved self world files]. split.
  - unfold switched. cbn [moved self world model]. f_equal.
    apply log_turns_same; [|reflexivity].
    cbn [files]. apply selected_other, log_file_name_other.
  - unfold selected. cbn [write_error files].
    destruct (write_error (world s) LAST_PROMPT); [reflexivity|].
    apply insert_insert_eq.
Qed.

(** X5: a restart brings the object back.  If the object is bound to a
    persona of the table, carries the fixed model name, agrees with its
    log, and the selection file can be read and holds the persona's name
    (a name that reading and trimming leave as it is), then the
    constructor, run on the files as they are, returns this very object. *)
Theorem X5_restart_restores_object (s : State) :
  bound SYSTEM_PROMPTS (self s) ->
  in_sync s ->
  model (self s) = GEMINI ->
  files (world s) !! LAST_PROMPT = Some (current_prompt (self s)) ->
  read_error (world s) LAST_PROMPT = None ->
  Str.strip (universal_newlines (current_prompt (self s))) = current_prompt (self s) ->
  exists s',
    __init__ SYSTEM_PROMPTS DEFAULT_PROMPT (world s) = Ok s' /\
    self s' = self s.
Proof.
  intros (Hlog & instruction & Hget & Hconfig) Hsync Hmodel Hfile Hread Hname.
  assert (Hload : _load_last_prompt SYSTEM_PROMPTS DEFAULT_PROMPT (world s)
                  = Ok (current_prompt (self s))).
  { unfold _load_last_prompt, path_exists, read_text.
    rewrite Hfile, Hread, Hname, (dict_get_has _ _ Hget). reflexivity. }
  destruct (__init___ok (world s) _ instruction Hload Hget) as (out & E).
  rewrite E. eexists. split; [reflexivity|].
  cbn [moved self]. unfold in_sync in Hsync.
  rewrite <- Hlog, <- Hsync, <- Hconfig, <- Hmodel. reflexivity.
Qed.

End StartAndSwitch.

(** ** Properties of the command loop *)

Section CommandLoop.

Variable SYSTEM_PROMPTS : list (pystr * pystr).
Variable DEFAULT_PROMPT : pystr.

Lemma bind_run {A B : Type} (m : M A) (k : A -> M B) (s : State) :
  (m ≫= k) s = k (fst (m s)) (snd (m s)).
Proof. unfold mbind, M_bind. destruct (m s). reflexivity. Qed.

Lemma grown_refl (fs : gmap pystr pystr) : grown fs fs.
Proof. intros path _. exists []. rewrite app_nil_r. reflexivity. Qed.

Lemma follows_refl (s : State) : follows SYSTEM_PROMPTS s s.
Proof.
  intros H. split; [exact H|]. split; [reflexivity|]. split; [reflexivity|].
  split; [reflexivity|]. split; [intros path _ _; reflexivity | apply grown_refl].
Qed.

Lemma follows_trans (s1 s2 s3 : State) :
  follows SYSTEM_PROMPTS s1 s2 -> follows SYSTEM_PROMPTS s2 s3 -> follows SYSTEM_PROMPTS s1 s3.
Proof.
  intros H12 H23 Hb. destruct (H12 Hb) as (Hb2 & Hm & Hr & Hw & Hk & Hg).
  destruct (H23 Hb2) as (Hb3 & Hm' & Hr' & Hw' & Hk' & Hg').
  split; [exact Hb3|]. split; [congruence|]. split; [congruence|].
  split; [congruence|]. split.
  - intros path H1 H2. rewrite (Hk' path H1 H2). apply Hk; assumption.
  - intros path H1. destruct (Hg path H1) as [x Hx]. destruct (Hg' path H1) as [y Hy].
    exists (x ++ y). rewrite Hy, Hx, app_assoc. reflexivity.
Qed.

Lemma follows_bind {A B : Type} (m : M A) (k : A -> M B) (s : State) :
  follows SYSTEM_PROMPTS s (snd (m s)) ->
  (forall a s1, follows SYSTEM_PROMPTS s1 (snd (k a s1))) ->
  follows SYSTEM_PROMPTS s (snd ((m ≫= k) s)).
Proof.
  intros Hm Hk. rewrite bind_run. eapply follows_trans; [exact Hm | apply Hk].
Qed.

Lemma follows_moved (b : ChatBot) (fs : gmap pystr pystr) (out : pystr) (s : State) :
  (bound SYSTEM_PROMPTS (self s) ->
   bound SYSTEM_PROMPTS b /\ model b = model (self s) /\
   forall path, path <> LAST_PROMPT ->
     fs !! path = files (world s) !! path \/
     (path = chat_log_file (self s) /\
      chat_log_file (self s) = log_file_name (current_prompt (self s)) /\
      exists suffix,
        default [] (fs !! path) = default [] (files (world s) !! path) ++ suffix)) ->
  follows SYSTEM_PROMPTS s (moved b fs out s).
Proof.
  intros H Hb. destruct (H Hb) as (H1 & H2 & H3).
  split; [exact H1|]. split; [exact H2|]. split; [reflexivity|].
  split; [reflexivity|]. cbn [moved world files]. split.
  - intros path Hne Hlog.
    destruct (H3 path Hne) as [Hsame | (Hpath & Hbound & _)]; [exact Hsame|].
    exfalso. apply (Hlog (current_prompt (self s))). congruence.
  - intros path Hne.
    destruct (H3 path Hne) as [Hsame | (_ & _ & Hsuffix)]; [|exact Hsuffix].
    exists []. rewrite Hsame, app_nil_r. reflexivity.
Qed.

Lemma evolved_as_moved (b : ChatBot) (fs : gmap pystr pystr) (out : pystr)
    (s : State) :
  evolved fs out {| self := b; world := world s |} = moved b fs out s.
Proof. reflexivity. Qed.

Lemma follows_mret {A : Type} (a : A) (s : State) :
  follows SYSTEM_PROMPTS s (snd ((mret a : M A) s)).
Proof. apply follows_refl. Qed.

Lemma follows_print_end (text : pystr) (s : State) :
  follows SYSTEM_PROMPTS s (snd (print_end text s)).
Proof.
  rewrite print_end_run. apply (follows_moved (self s)).
  intros Hb. split; [exact Hb|]. split; [reflexivity|].
  intros path _. left. reflexivity.
Qed.

Lemma follows_print (text : pystr) (s : State) : follows SYSTEM_PROMPTS s (snd (print text s)).
Proof. apply follows_print_end. Qed.

Lemma follows__save_last_prompt (s : State) :
  follows SYSTEM_PROMPTS s (snd (_save_last_prompt s)).
Proof.
  destruct (_save_last_prompt_selected s) as (out & E). rewrite E.
  apply (follows_moved (self s)).
  intros Hb. split; [exact Hb|]. split; [reflexivity|].
  intros path Hne. left. apply selected_other, Hne.
Qed.

Lemma follows_clear_history (s : State) : follows SYSTEM_PROMPTS s (snd (clear_history s)).
Proof.
  rewrite clear_history_run, evolved_as_moved. cbn [snd]. apply follows_moved.
  intros Hb. split; [exact Hb|]. split; [reflexivity|].
  intros path _. left. reflexivity.
Qed.

Lemma follows_list_prompts (s : State) :
  follows SYSTEM_PROMPTS s (snd (list_prompts SYSTEM_PROMPTS s)).
Proof.
  rewrite list_prompts_run. apply (follows_moved (self s)).
  intros Hb. split; [exact Hb|]. split; [reflexivity|].
  intros path _. left. reflexivity.
Qed.

Lemma follows_switch_prompt (name : pystr) (s : State) :
  follows SYSTEM_PROMPTS s (snd (switch_prompt SYSTEM_PROMPTS name s)).
Proof.
  destruct (dict_get SYSTEM_PROMPTS name) as [instruction|] eqn:Hget.
  - destruct (switch_prompt_moved SYSTEM_PROMPTS name instruction s Hget) as (out & E).
    rewrite E. apply follows_moved. intros _. split; [|split; [reflexivity|]].
    + split; [reflexivity | exists instruction; split; [exact Hget | reflexivity]].
    + intros path Hne. left. apply selected_other, Hne.
  - rewrite switch_prompt_rejected by (unfold dict_has; rewrite Hget; reflexivity).
    apply (follows_moved (self s)).
    intros Hb. split; [exact Hb|]. split; [reflexivity|].
  intros path _. left. reflexivity.
Qed.

Lemma follows_get_response (svc : Service) (now_user now_model : datetime)
    (user_input : pystr) (s : State) :
  follows SYSTEM_PROMPTS s (snd (get_response svc now_user now_model user_input s)).
Proof.
  destruct (get_response_world svc now_user now_model user_input s) as (out & E).
  rewrite E. apply follows_moved. intros (Hlog & Hcfg).
  split; [split; [exact Hlog | exact Hcfg]|]. split; [reflexivity|].
  intros path _. destruct (decide (path = chat_log_file (self s))) as [->|Hne].
  - right. split; [reflexivity|]. split; [exact Hlog | apply appended_grows].
  - left. apply appended_other, Hne.
Qed.

Lemma get_response_interrupted_run (now_user : datetime) (user_input : pystr)
    (shown : Stream) (s : State) :
  exists out,
    get_response_interrupted now_user user_input shown s =
    (tt, moved (with_history (self s)
                  (conversation_history (self s) ++ [turn USER user_input]))
           (appended (world s) (chat_log_file (self s))
              (kept (log_entry now_user USER user_input)))
           out s).
Proof.
  unfold get_response_interrupted. rewrite !bind_run, add_message_run. cbn [fst snd].
  destruct (_save_to_log_appended now_user USER user_input
              (add_turns [turn USER user_input] s)) as (o1 & E1).
  rewrite E1. cbn [fst snd].
  match goal with
  | |- context [consume ?st ?a ?t] => destruct (consume_run st a t) as (o2 & E2)
  end.
  rewrite E2. cbn [fst snd]. exists (o1 ++ o2). unfold mret, M_ret. f_equal.
  unfold moved, evolved, add_turns, with_history.
  cbn [self world files read_error write_error stdout model
       conversation_history current_prompt chat_log_file config].
  rewrite <- !app_assoc. reflexivity.
Qed.

Lemma follows_get_response_interrupted (now_user : datetime)
    (user_input : pystr) (shown : Stream) (s : State) :
  follows SYSTEM_PROMPTS s
    (snd (get_response_interrupted now_user user_input shown s)).
Proof.
  destruct (get_response_interrupted_run now_user user_input shown s) as (out & E).
  rewrite E. apply follows_moved. intros (Hlog & Hcfg).
  split; [split; [exact Hlog | exact Hcfg]|]. split; [reflexivity|].
  intros path _. destruct (decide (path = chat_log_file (self s))) as [->|Hne].
  - right. split; [reflexivity|]. split; [exact Hlog | apply appended_grows].
  - left. apply appended_other, Hne.
Qed.

Lemma follows_get_self (s : State) : follows SYSTEM_PROMPTS s (snd (get_self s)).
Proof. apply follows_refl. Qed.

Ltac follow_steps :=
  repeat first
    [ apply follows_mret
    | apply follows_print_end
    | apply follows_print
    | apply follows__save_last_prompt
    | apply follows_clear_history
    | apply follows_list_prompts
    | apply follows_switch_prompt
    | apply follows_get_response
    | apply follows_get_response_interrupted
    | apply follows_get_self
    | apply follows_bind; [|intros ? ?] ].

Lemma follows_iteration (st : Step) (s : State) :
  follows SYSTEM_PROMPTS s (snd (iteration SYSTEM_PROMPTS st s)).
Proof.
  unfold iteration.
  destruct (typed st) as [text| | |prompted e];
    [|follow_steps|follow_steps|destruct prompted; follow_steps].
  apply follows_bind; [apply follows_print_end | intros _ s1].
  cbv zeta.
  repeat match goal with
         | |- context [if ?c then _ else _] => destruct c
         end; follow_steps.
  destruct (interrupt st) as [k|]; [|follow_steps].
  match goal with
  | |- context [cut k ?x] => destruct (cut k x)
  end; follow_steps.
Qed.

(** [saved] after the two statements of every way out of the loop. *)
Lemma saved_after_exit (text : pystr) (s : State) :
  saved (snd ((_save_last_prompt ;; print text) s)) /\
  self (snd ((_save_last_prompt ;; print text) s)) = self s /\
  files (world (snd ((_save_last_prompt ;; print text) s)))
  = selected (world s) (current_prompt (self s)).
Proof.
  rewrite bind_run. destruct (_save_last_prompt_selected s) as (out & E).
  rewrite E, print_run. cbn [snd evolved self world files].
  split; [|split; reflexivity].
  unfold saved, selected. cbn [evolved self world files write_error].
  intros ->. apply lookup_insert_eq.
Qed.

Lemma exit_run (text : pystr) (s : State) :
  fst ((_save_last_prompt ;; print text ;; mret false) s) = false /\
  saved (snd ((_save_last_prompt ;; print text ;; mret false) s)) /\
  self (snd ((_save_last_prompt ;; print text ;; mret false) s)) = self s /\
  files (world (snd ((_save_last_prompt ;; print text ;; mret false) s)))
  = selected (world s) (current_prompt (self s)).
Proof.
  pose proof (saved_after_exit text s) as H.
  rewrite !bind_run in *. cbn [fst snd mret M_ret]. split; [reflexivity | exact H].
Qed.

Lemma words_not_prompt (x : pystr) :
  Str.startswith x PROMPT_PREFIX = true ->
  member x QUIT_WORDS = false /\ member x CLEAR_WORDS = false.
Proof.
  intros H. unfold QUIT_WORDS, CLEAR_WORDS, member.
  repeat match goal with
         | |- context [decide (x = ?w)] =>
             destruct (decide (x = w)) as [->|_]; [discriminate H|]
         end.
  split; reflexivity.
Qed.

(** Ctrl+C and the end of the input at [input()], and a quit word. *)
Lemma iteration_leaves (st : Step) (s : State) :
  typed st = KeyboardInterrupt \/ typed st = EOFError \/
  (exists text, typed st = Line text /\
                member (Str.lower (Str.strip text)) QUIT_WORDS = true) ->
  fst (iteration SYSTEM_PROMPTS st s) = false /\
  self (snd (iteration SYSTEM_PROMPTS st s)) = self s /\
  files (world (snd (iteration SYSTEM_PROMPTS st s)))
  = selected (world s) (current_prompt (self s)).
Proof.
  unfold iteration.
  intros [-> | [-> | (text & -> & Hq)]]; cbv zeta; rewrite bind_run; [| |rewrite Hq];
    match goal with
    | |- context [(_save_last_prompt ;; print ?t ;; mret false) ?s0] =>
        destruct (exit_run t s0) as (H1 & _ & H2 & H3)
    end;
    rewrite H1, H2, H3, print_end_run; (split; [|split]; reflexivity).
Qed.

(** Ctrl+C while the answer to a turn streams. *)
Lemma iteration_interrupted (st : Step) (text : pystr) (k : nat) (shown : Stream)
    (s : State) :
  typed st = Line text ->
  starts_turn (Str.strip text) ->
  interrupt st = Some k ->
  cut k (request (service st) (Str.strip text) s) = Some shown ->
  fst (iteration SYSTEM_PROMPTS st s) = false /\
  self (snd (iteration SYSTEM_PROMPTS st s))
  = with_history (self s)
      (conversation_history (self s) ++ [turn USER (Str.strip text)]) /\
  files (world (snd (iteration SYSTEM_PROMPTS st s)))
  = selected (set_files (world s)
                (appended (world s) (chat_log_file (self s))
                   (kept (log_entry (clock_user st) USER (Str.strip text)))))
      (current_prompt (self s)).
Proof.
  intros Hline (Hq & Hc & Hp & Hne) Hint Hcut.
  assert (Ht : truthy (Some (Str.strip text)) = true)
    by (destruct (Str.strip text); [congruence | reflexivity]).
  unfold iteration. rewrite Hline. cbv zeta.
  rewrite bind_run, print_end_run, Hq, Hc, Hp, Ht. cbn [fst snd negb].
  rewrite bind_run, print_end_run. cbn [fst snd].
  rewrite bind_run. unfold get_self.
  rewrite Hint. unfold request in Hcut.
  cbn [fst snd evolved self world model conversation_history config].
  rewrite Hcut, bind_run.
  match goal with
  | |- context [(_save_last_prompt ;; print ?t ;; mret false) ?s0] =>
      destruct (exit_run t s0) as (H1 & _ & H2 & H3)
  end.
  rewrite H1, H2, H3. split; [reflexivity|].
  match goal with
  | |- context [get_response_interrupted ?n ?u ?sh ?s0] =>
      destruct (get_response_interrupted_run n u sh s0) as (out & E)
  end.
  rewrite E. split; reflexivity.
Qed.

(** A line that is no quit word, with no Ctrl+C after it, and an
    exception of [input()] that the last handler takes. *)
Lemma iteration_goes_on (st : Step) (s : State) :
  ((exists text, typed st = Line text /\
                 member (Str.lower (Str.strip text)) QUIT_WORDS = false /\
                 interrupt st = None) \/
   (exists prompted e, typed st = InputError prompted e)) ->
  fst (iteration SYSTEM_PROMPTS st s) = true.
Proof.
  unfold iteration.
  intros [(text & -> & Hq & Hint) | (prompted & e & ->)]; cbv zeta.
  - rewrite bind_run, Hq, Hint.
    repeat match goal with
           | |- context [if ?c then _ else _] => destruct c; cbv beta iota
           end; rewrite ?bind_run; reflexivity.
  - rewrite !bind_run. reflexivity.
Qed.

Lemma iteration_input_error (st : Step) (prompted : bool) (e : pystr) (s : State) :
  typed st = InputError prompted e ->
  self (snd (iteration SYSTEM_PROMPTS st s)) = self s /\
  files (world (snd (iteration SYSTEM_PROMPTS st s))) = files (world s).
Proof.
  intros Hline. unfold iteration. rewrite Hline.
  destruct prompted; rewrite !bind_run, ?print_end_run, print_run;
    split; reflexivity.
Qed.

Lemma iteration_exit (st : Step) (s : State) :
  fst (iteration SYSTEM_PROMPTS st s) = false ->
  saved (snd (iteration SYSTEM_PROMPTS st s)).
Proof.
  unfold iteration.
  destruct (typed st) as [text| | |prompted e].
  - cbv zeta. rewrite bind_run.
    repeat match goal with
           | |- context [if ?c then _ else _] => destruct c; cbv beta iota
           end;
      try (rewrite ?bind_run; cbn [fst mret M_ret]; intros H; discriminate H);
      try (intros _; apply exit_run).
    rewrite (bind_run (print_end _)), (bind_run get_self).
    destruct (interrupt st) as [k|];
      [|rewrite ?bind_run; cbn [fst mret M_ret]; intros H; discriminate H].
    match goal with
    | |- context [cut k ?x] => destruct (cut k x)
    end; [|rewrite ?bind_run; cbn [fst mret M_ret]; intros H; discriminate H].
    intros _. rewrite bind_run. apply exit_run.
  - intros _. rewrite bind_run. apply exit_run.
  - intros _. rewrite bind_run. apply exit_run.
  - rewrite !bind_run. cbn [fst mret M_ret]. intros H. discriminate H.
Qed.

Lemma run_loop_follows (steps : list Step) (s : State) :
  follows SYSTEM_PROMPTS s (snd (run_loop SYSTEM_PROMPTS steps s)) /\
  saved (snd (run_loop SYSTEM_PROMPTS steps s)).
Proof.
  revert s. induction steps as [|st steps IH]; intros s; cbn [run_loop].
  - split.
    + follow_steps.
    + rewrite bind_run. apply saved_after_exit.
  - rewrite bind_run.
    destruct (fst (iteration SYSTEM_PROMPTS st s)) eqn:Hagain.
    + destruct (IH (snd (iteration SYSTEM_PROMPTS st s))) as (Hf & Hs).
      split; [|exact Hs].
      eapply follows_trans; [apply follows_iteration | exact Hf].
    + cbn [snd mret M_ret]. split; [apply follows_iteration|].
      apply (iteration_exit st s Hagain).
Qed.

Lemma follows_show_welcome (s : State) : follows SYSTEM_PROMPTS s (snd (show_welcome s)).
Proof.
  unfold show_welcome.
  apply follows_bind; [apply follows_print | intros _ s1].
  apply follows_bind; [apply follows_print | intros _ s2].
  apply follows_bind; [apply follows_refl | intros b s3].
  apply follows_bind; [apply follows_refl | intros w s4].
  destruct (path_exists w (chat_log_file b)); follow_steps.
Qed.

Lemma run_follows (steps : list Step) (s : State) :
  follows SYSTEM_PROMPTS s (snd (run SYSTEM_PROMPTS steps s)) /\
  saved (snd (run SYSTEM_PROMPTS steps s)).
Proof.
  unfold run. rewrite bind_run.
  destruct (run_loop_follows steps (snd (show_welcome s))) as (Hf & Hs).
  split; [|exact Hs].
  eapply follows_trans; [apply follows_show_welcome | exact Hf].
Qed.

Lemma dict_get_In (k v : pystr) :
  dict_get SYSTEM_PROMPTS k = Some v -> In (k, v) SYSTEM_PROMPTS.
Proof.
  induction SYSTEM_PROMPTS as [|[k' v'] l IH]; simpl; [discriminate|].
  destruct (decide (k' = k)) as [->|_].
  - intros H. injection H as ->. left. reflexivity.
  - intros H. right. apply IH, H.
Qed.

(** X14: whatever is typed, [run] ends (on a quit word, on Ctrl+C, or when
    the input ends) with the object still bound to a persona of the table
    and with the same model name; it changes no file other than the
    selection and the logs; and if the selection file can be opened for
    writing, it holds the persona that is active at the end, or nothing
    when that name has a lone surrogate and cannot be encoded. *)
Theorem X14_run_ends_bound_and_saved (steps : list Step) (s : State) :
  bound SYSTEM_PROMPTS (self s) ->
  bound SYSTEM_PROMPTS (self (snd (run SYSTEM_PROMPTS steps s))) /\
  model (self (snd (run SYSTEM_PROMPTS steps s))) = model (self s) /\
  kept_outside_chat (files (world (snd (run SYSTEM_PROMPTS steps s))))
    (files (world s)) /\
  (write_error (world s) LAST_PROMPT = None ->
   files (world (snd (run SYSTEM_PROMPTS steps s))) !! LAST_PROMPT
   = Some (kept (current_prompt (self (snd (run SYSTEM_PROMPTS steps s)))))).
Proof.
  intros Hb. destruct (run_follows steps s) as (Hf & Hs).
  destruct (Hf Hb) as (Hb' & Hm & _ & Hw & Hk & Hg).
  split; [exact Hb'|]. split; [exact Hm|]. split; [exact Hk|].
  intros Hw0. apply Hs. rewrite Hw. exact Hw0.
Qed.

(** X15: the persona active when [run] ends is the persona loaded at the
    next start, provided the selection file can be written and read, the
    names of the table are left as they are by reading and trimming (no
    white space at either end, no carriage return), and the name can be
    encoded.  A name with a lone surrogate is not written: the selection
    file is left empty, and the next start loads the empty name if the
    table has it and the default otherwise. *)
Theorem X15_next_start_loads_last_persona (steps : list Step) (s : State) :
  bound SYSTEM_PROMPTS (self s) ->
  write_error (world s) LAST_PROMPT = None ->
  read_error (world s) LAST_PROMPT = None ->
  Forall (fun kv => Str.strip (universal_newlines (fst kv)) = fst kv) SYSTEM_PROMPTS ->
  _load_last_prompt SYSTEM_PROMPTS DEFAULT_PROMPT
    (world (snd (run SYSTEM_PROMPTS steps s)))
  = Ok (if Utf8.encodable (current_prompt (self (snd (run SYSTEM_PROMPTS steps s))))
        then current_prompt (self (snd (run SYSTEM_PROMPTS steps s)))
        else if dict_has SYSTEM_PROMPTS [] then [] else DEFAULT_PROMPT).
Proof.
  intros Hb Hw Hr Hkeys. destruct (run_follows steps s) as (Hf & Hs).
  destruct (Hf Hb) as ((_ & instruction & Hget & _) & _ & Hr' & Hw' & _ & _).
  assert (Hfile : files (world (snd (run SYSTEM_PROMPTS steps s))) !! LAST_PROMPT
                  = Some (kept (current_prompt
                                  (self (snd (run SYSTEM_PROMPTS steps s)))))).
  { apply Hs. rewrite Hw'. exact Hw. }
  unfold _load_last_prompt, path_exists, read_text.
  rewrite Hr', Hr, !Hfile.
  pose proof (proj1 (List.Forall_forall _ _) Hkeys _ (dict_get_In _ _ Hget)) as Hname.
  cbn [fst] in Hname. cbv beta iota. unfold kept.
  destruct (Utf8.encodable (current_prompt (self (snd (run SYSTEM_PROMPTS steps s))))).
  - rewrite Hname, (dict_get_has _ _ _ Hget). reflexivity.
  - change (Str.strip (universal_newlines [])) with (@nil N).
    destruct (dict_has SYSTEM_PROMPTS []); reflexivity.
Qed.

(** X16: the ways out of the loop.  Ctrl+C at the prompt, the end of the
    input, and a line that, trimmed and lowered, is one of quit, exit,
    bye, 退出, 再见 leave the loop with the object as it was and no file
    touched but the selection.  Ctrl+C while the answer to a turn streams
    leaves it too: the user's turn stays in the history and its record in
    the log, no answer is recorded, and the selection is saved.  A line
    that is no quit word goes on with the loop when no Ctrl+C follows it,
    and so does any other exception of [input()], which changes neither
    the object nor a file.  Whenever the loop is left, the selection has
    been saved if its file can be opened, and nothing typed afterwards is
    read. *)
Theorem X16_leaving_the_loop (st : Step) (s : State) :
  (typed st = KeyboardInterrupt \/ typed st = EOFError \/
   (exists text, typed st = Line text /\
                 member (Str.lower (Str.strip text)) QUIT_WORDS = true) ->
   fst (iteration SYSTEM_PROMPTS st s) = false /\
   self (snd (iteration SYSTEM_PROMPTS st s)) = self s /\
   files (world (snd (iteration SYSTEM_PROMPTS st s)))
   = selected (world s) (current_prompt (self s))) /\
  (forall text k shown,
     typed st = Line text ->
     starts_turn (Str.strip text) ->
     interrupt st = Some k ->
     cut k (request (service st) (Str.strip text) s) = Some shown ->
     fst (iteration SYSTEM_PROMPTS st s) = false /\
     self (snd (iteration SYSTEM_PROMPTS st s))
     = with_history (self s)
         (conversation_history (self s) ++ [turn USER (Str.strip text)]) /\
     files (world (snd (iteration SYSTEM_PROMPTS st s)))
     = selected (set_files (world s)
                   (appended (world s) (chat_log_file (self s))
                      (kept (log_entry (clock_user st) USER (Str.strip text)))))
         (current_prompt (self s))) /\
  (forall text,
     typed st = Line text ->
     member (Str.lower (Str.strip text)) QUIT_WORDS = false ->
     interrupt st = None ->
     fst (iteration SYSTEM_PROMPTS st s) = true) /\
  (forall prompted e,
     typed st = InputError prompted e ->
     fst (iteration SYSTEM_PROMPTS st s) = true /\
     self (snd (iteration SYSTEM_PROMPTS st s)) = self s /\
     files (world (snd (iteration SYSTEM_PROMPTS st s))) = files (world s)) /\
  (fst (iteration SYSTEM_PROMPTS st s) = false ->
   saved (snd (iteration SYSTEM_PROMPTS st s)) /\
   forall rest rest',
     run_loop SYSTEM_PROMPTS (st :: rest) s = run_loop SYSTEM_PROMPTS (st :: rest') s).
Proof.
  split; [apply iteration_leaves|].
  split; [intros text k shown; apply iteration_interrupted|].
  split; [intros text Hline Hq Hint; apply iteration_goes_on; left; eauto|].
  split.
  - intros prompted e Hline. split; [apply iteration_goes_on; right; eauto|].
    apply (iteration_input_error st prompted e s Hline).
  - intros H. split; [apply (iteration_exit st s H)|].
    intros rest rest'. cbn [run_loop]. rewrite !bind_run, H. reflexivity.
Qed.

(** X17: a line that is empty once trimmed, and a [prompt:] command (the
    prefix in any letter case) without a name, with the name list, or with
    a name that is not in the table, leave the object and every file as
    they were, and the loop goes on; so [prompt:list] lists and never
    switches, also when the table has a persona called list. *)
Theorem X17_lines_without_effect (st : Step) (text : pystr) (s : State) :
  typed st = Line text ->
  Str.strip text = [] \/
  (Str.startswith (Str.lower (Str.strip text)) PROMPT_PREFIX = true /\
   (Str.strip (drop 7 (Str.strip text)) = LIST \/
    Str.strip (drop 7 (Str.strip text)) = [] \/
    dict_has SYSTEM_PROMPTS (Str.strip (drop 7 (Str.strip text))) = false)) ->
  fst (iteration SYSTEM_PROMPTS st s) = true /\
  self (snd (iteration SYSTEM_PROMPTS st s)) = self s /\
  files (world (snd (iteration SYSTEM_PROMPTS st s))) = files (world s).
Proof.
  intros Hline Hcase. unfold iteration. rewrite Hline.
  destruct Hcase as [Hblank | (Hprefix & Hname)].
  - rewrite Hblank. repeat split.
  - destruct (words_not_prompt _ Hprefix) as (Hq & Hc).
    rewrite !bind_run, Hq, Hc, Hprefix, print_end_run. cbn [fst snd].
    destruct (decide (Str.strip (drop 7 (Str.strip text)) = LIST)) as [_|Hlist].
    + rewrite !bind_run, list_prompts_run. repeat split.
    + destruct (Str.strip (drop 7 (Str.strip text))) as [|c name] eqn:Hn.
      * cbn [truthy]. rewrite !bind_run, print_run, list_prompts_run. repeat split.
      * destruct Hname as [H | [H | H]]; [congruence | discriminate H |].
        cbn [truthy]. rewrite !bind_run, (switch_prompt_rejected _ _ _ H).
        repeat split.
Qed.

(** X19: over a whole run the logs are only written at their end: every
    file other than the selection holds at the end what it held at the
    start, possibly followed by more. *)
Theorem X19_run_only_appends (steps : list Step) (s : State) :
  bound SYSTEM_PROMPTS (self s) ->
  forall path,
    path <> LAST_PROMPT ->
    exists suffix,
      default [] (files (world (snd (run SYSTEM_PROMPTS steps s))) !! path)
      = default [] (files (world s) !! path) ++ suffix.
Proof.
  intros Hb. destruct (run_follows steps s) as (Hf & _).
  destruct (Hf Hb) as (_ & _ & _ & _ & _ & Hg). exact Hg.
Qed.

End CommandLoop.

(** ** The further statements at concrete inputs *)

(** A text with a lone surrogate is kept in memory and not written: the
    log file is created and left empty, the warning carries the message of
    the encoder, and nothing is read back. *)
Example surrogate_turn_lost :
  conversation_history
    (self (snd (appendTurns [(ex_now, USER, ex_surrogate)] ex_state)))
  = [turn USER ex_surrogate] /\
  files (world (snd (appendTurns [(ex_now, USER, ex_surrogate)] ex_state)))
    !! chat_log_file (self ex_state)
  = Some [] /\
  stdout (world (snd (appendTurns [(ex_now, USER, ex_surrogate)] ex_state)))
  = py "⚠️ 保存对话记录失败: 'utf-8' codec can't encode character '\ud800' in position 10: surrogates not allowed" ++ NL /\
  log_turns (world (snd (appendTurns [(ex_now, USER, ex_surrogate)] ex_state)))
    (chat_log_file (self ex_state))
  = [].
Proof. vm_compute. repeat split. Qed.

Example surrogates_message :
  Utf8.encode_error (py "ab" ++ [55296; 56320; 57343]%N ++ py "c" ++ [55296%N])
  = py "'utf-8' codec can't encode characters in position 2-4: surrogates not allowed".
Proof. vm_compute. reflexivity. Qed.

(** A persona whose name cannot be encoded is selected in memory; the
    selection file is left empty and the next start loads the default. *)
Example surrogate_persona_not_saved :
  let table := ex_prompts ++ [(ex_surrogate, py "A persona.")] in
  let s := snd (switch_prompt table ex_surrogate ex_state) in
  current_prompt (self s) = ex_surrogate /\
  files (world s) !! LAST_PROMPT = Some [] /\
  _load_last_prompt table ex_default (world s) = Ok ex_default.
Proof. vm_compute. repeat split. Qed.

(** Ctrl+C after the first chunk of an answer: the chunk has been shown,
    the user's turn is in the history and in the log, no answer is
    recorded, and the loop is left. *)
Example interrupted_turn :
  fst (iteration ex_prompts ex_interrupted ex_state) = false /\
  conversation_history (self (snd (iteration ex_prompts ex_interrupted ex_state)))
  = [turn USER (py "hello")] /\
  log_turns (world (snd (iteration ex_prompts ex_interrupted ex_state)))
    (chat_log_file (self ex_state))
  = [turn USER (py "hello")] /\
  files (world (snd (iteration ex_prompts ex_interrupted ex_state))) !! LAST_PROMPT
  = Some (py "default").
Proof. vm_compute. repeat split. Qed.

(** A session: a turn, a switch, a turn, a quit word; the line after it is
    not read. *)
Example run_session :
  current_prompt (self (snd (run ex_prompts ex_steps ex_state))) = py "coder" /\
  conversation_history (self (snd (run ex_prompts ex_steps ex_state)))
  = [turn USER (py "what now"); turn MODEL (py "hi there")] /\
  files (world (snd (run ex_prompts ex_steps ex_state))) !! LAST_PROMPT
  = Some (py "coder") /\
  log_turns (world (snd (run ex_prompts ex_steps ex_state)))
    (log_file_name (py "default"))
  = [turn USER (py "hello"); turn MODEL (py "hi there")].
Proof. vm_compute. repeat split. Qed.

Lemma X1_witness :
  dict_has ex_prompts ex_default = true /\
  exists s,
    __init__ ex_prompts ex_default (world ex_chatting) = Ok s /\
    bound ex_prompts (self s) /\
    in_sync s /\
    model (self s) = GEMINI /\
    files (world s) = files (world ex_chatting).
Proof.
  split; [reflexivity|].
  apply (X1_init_succeeds ex_prompts ex_default (world ex_chatting)). reflexivity.
Defined.

Lemma X2_witness :
  dict_has ex_prompts (py "missing") = false /\
  (forall data, read_text empty_world LAST_PROMPT = Ok data ->
     dict_has ex_prompts (Str.strip data) = false) /\
  __init__ ex_prompts (py "missing") empty_world = Raise (py "missing").
Proof.
  assert (H : forall data, read_text empty_world LAST_PROMPT = Ok data ->
                dict_has ex_prompts (Str.strip data) = false).
  { intros data Hread. vm_compute in Hread. discriminate Hread. }
  split; [reflexivity|]. split; [exact H|].
  apply (X2_init_key_error ex_prompts (py "missing") empty_world); [reflexivity | exact H].
Defined.

Lemma X3_witness :
  dict_get ex_prompts (py "coder") = Some (py "You write code.") /\
  self (snd (switch_prompt ex_prompts (py "coder") ex_chatting))
  = switched (py "coder") (py "You write code.") ex_chatting.
Proof.
  split; [reflexivity|].
  apply (X3_switch_accepted ex_prompts (py "coder") (py "You write code.") ex_chatting).
  reflexivity.
Defined.

Lemma X4_witness :
  dict_get ex_prompts (py "coder") = Some (py "You write code.") /\
  self (snd (switch_prompt ex_prompts (py "coder")
               (snd (switch_prompt ex_prompts (py "coder") ex_chatting))))
  = self (snd (switch_prompt ex_prompts (py "coder") ex_chatting)).
Proof.
  split; [reflexivity|].
  apply (X4_switch_idempotent ex_prompts (py "coder") (py "You write code.") ex_chatting).
  reflexivity.
Defined.

Lemma X5_witness :
  bound ex_prompts (self ex_switched) /\
  in_sync ex_switched /\
  model (self ex_switched) = GEMINI /\
  files (world ex_switched) !! LAST_PROMPT = Some (current_prompt (self ex_switched)) /\
  read_error (world ex_switched) LAST_PROMPT = None /\
  Str.strip (universal_newlines (current_prompt (self ex_switched)))
  = current_prompt (self ex_switched) /\
  exists s',
    __init__ ex_prompts ex_default (world ex_switched) = Ok s' /\
    self s' = self ex_switched.
Proof.
  assert (Hb : bound ex_prompts (self ex_switched)).
  { split; [reflexivity|]. exists (py "You write code."). split; reflexivity. }
  assert (Hs : in_sync ex_switched) by (vm_compute; reflexivity).
  assert (Hf : files (world ex_switched) !! LAST_PROMPT
               = Some (current_prompt (self ex_switched)))
    by (vm_compute; reflexivity).
  split; [exact Hb|]. split; [exact Hs|]. split; [reflexivity|].
  split; [exact Hf|]. split; [reflexivity|]. split; [reflexivity|].
  apply (X5_restart_restores_object ex_prompts ex_default ex_switched);
    [exact Hb | exact Hs | reflexivity | exact Hf | reflexivity | reflexivity].
Defined.

Lemma X6_witness :
  failure (request ex_service (py "hi") ex_state) = None /\
  answer (request ex_service (py "hi") ex_state) <> [] /\
  conversation_history
    (self (snd (get_response ex_service ex_now ex_now (py "hi") ex_state)))
  = conversation_history (self ex_state) ++
    [turn USER (py "hi"); turn MODEL (answer (request ex_service (py "hi") ex_state))].
Proof.
  assert (Ha : answer (request ex_service (py "hi") ex_state) <> [])
    by (vm_compute; discriminate).
  split; [reflexivity|]. split; [exact Ha|].
  apply (X6_submit_answer ex_service ex_now ex_now (py "hi") ex_state);
    [reflexivity | exact Ha].
Defined.

Lemma X7_witness :
  self ex_state = self ex_readonly /\
  fst (get_response ex_service ex_now ex_now (py "hi") ex_state)
  = fst (get_response ex_service ex_now ex_now (py "hi") ex_readonly) /\
  self (snd (get_response ex_service ex_now ex_now (py "hi") ex_state))
  = self (snd (get_response ex_service ex_now ex_now (py "hi") ex_readonly)).
Proof.
  split; [reflexivity|].
  destruct (X7_submit_memory_apart_from_disk ex_service ex_now ex_now (py "hi")
              ex_state ex_readonly eq_refl) as (Hret & Hself & _).
  split; [exact Hret | exact Hself].
Defined.

Lemma X9_witness :
  chat_log_file (self ex_chatting) = log_file_name (current_prompt (self ex_chatting)) /\
  py "coder" <> current_prompt (self ex_chatting) /\
  log_turns (world (snd (get_response ex_service ex_now ex_now (py "more") ex_chatting)))
    (log_file_name (py "coder"))
  = log_turns (world ex_chatting) (log_file_name (py "coder")).
Proof.
  assert (Hne : py "coder" <> current_prompt (self ex_chatting))
    by (vm_compute; discriminate).
  split; [reflexivity|]. split; [exact Hne|].
  apply (X9_personas_isolated ex_service ex_now ex_now (py "more") (py "coder")
           ex_chatting); [reflexivity | exact Hne].
Defined.

Lemma X11_witness :
  write_error (world ex_chatting) (chat_log_file (self ex_chatting)) = None /\
  read_error (world ex_chatting) (chat_log_file (self ex_chatting)) = None /\
  Str.contains (default [] (files (world ex_chatting)
                              !! chat_log_file (self ex_chatting))) [13%N] = false /\
  Forall plain_turn [(ex_now, USER, py "again")] /\
  log_turns (world (snd (appendTurns [(ex_now, USER, py "again")] ex_chatting)))
    (chat_log_file (self ex_chatting))
  = log_turns (world ex_chatting) (chat_log_file (self ex_chatting)) ++
    map turn_of [(ex_now, USER, py "again")].
Proof.
  assert (Hplain : Forall plain_turn [(ex_now, USER, py "again")]).
  { repeat constructor; try reflexivity; vm_compute; discriminate. }
  assert (Hcr : Str.contains (default [] (files (world ex_chatting)
                   !! chat_log_file (self ex_chatting))) [13%N] = false)
    by (vm_compute; reflexivity).
  split; [reflexivity|]. split; [reflexivity|]. split; [exact Hcr|].
  split; [exact Hplain|].
  apply (X11_round_trip_on_existing_log [(ex_now, USER, py "again")] ex_chatting);
    [reflexivity | reflexivity | exact Hcr | exact Hplain].
Defined.

Lemma X13_witness :
  in_sync ex_state /\
  write_error (world ex_state) (chat_log_file (self ex_state)) = None /\
  read_error (world ex_state) (chat_log_file (self ex_state)) = None /\
  Str.contains (default [] (files (world ex_state)
                              !! chat_log_file (self ex_state))) [13%N] = false /\
  plain_text USER (py "hello") /\
  plain_text MODEL (answer (request ex_greeting (py "hello") ex_state)) /\
  in_sync (snd (get_response ex_greeting ex_now ex_now (py "hello") ex_state)).
Proof.
  assert (Hu : plain_text USER (py "hello")).
  { repeat split; try reflexivity. vm_compute. discriminate. }
  assert (Hm : plain_text MODEL (answer (request ex_greeting (py "hello") ex_state))).
  { repeat split; try reflexivity. vm_compute. discriminate. }
  split; [reflexivity|]. split; [reflexivity|]. split; [reflexivity|].
  split; [reflexivity|]. split; [exact Hu|]. split; [exact Hm|].
  apply (X13_submit_keeps_sync ex_greeting ex_now ex_now (py "hello") ex_state);
    [reflexivity | reflexivity | reflexivity | reflexivity | exact Hu |].
  intros _ _. exact Hm.
Defined.

Lemma X14_witness :
  bound ex_prompts (self ex_state) /\
  bound ex_prompts (self (snd (run ex_prompts ex_steps ex_state))) /\
  files (world (snd (run ex_prompts ex_steps ex_state))) !! LAST_PROMPT
  = Some (current_prompt (self (snd (run ex_prompts ex_steps ex_state)))).
Proof.
  assert (Hb : bound ex_prompts (self ex_state)).
  { split; [reflexivity|]. exists (py "You are a helpful assistant."). split; reflexivity. }
  destruct (X14_run_ends_bound_and_saved ex_prompts ex_steps ex_state Hb)
    as (Hb' & _ & _ & Hsaved).
  split; [exact Hb|]. split; [exact Hb'|]. apply Hsaved. reflexivity.
Defined.

Lemma X15_witness :
  bound ex_prompts (self ex_state) /\
  write_error (world ex_state) LAST_PROMPT = None /\
  read_error (world ex_state) LAST_PROMPT = None /\
  Forall (fun kv => Str.strip (universal_newlines (fst kv)) = fst kv) ex_prompts /\
  _load_last_prompt ex_prompts ex_default (world (snd (run ex_prompts ex_steps ex_state)))
  = Ok (current_prompt (self (snd (run ex_prompts ex_steps ex_state)))).
Proof.
  assert (Hb : bound ex_prompts (self ex_state)).
  { split; [reflexivity|]. exists (py "You are a helpful assistant."). split; reflexivity. }
  assert (Hk : Forall (fun kv => Str.strip (universal_newlines (fst kv)) = fst kv)
                 ex_prompts).
  { repeat constructor. }
  split; [exact Hb|]. split; [reflexivity|]. split; [reflexivity|]. split; [exact Hk|].
  apply (X15_next_start_loads_last_persona ex_prompts ex_default ex_steps ex_state);
    [exact Hb | reflexivity | reflexivity | exact Hk].
Defined.

Lemma X16_witness :
  member (Str.lower (Str.strip (py " Bye "))) QUIT_WORDS = true /\
  fst (iteration ex_prompts (ex_step (py " Bye ")) ex_chatting) = false /\
  starts_turn (Str.strip (py "hello")) /\
  cut 1 (request (service ex_interrupted) (Str.strip (py "hello")) ex_state)
  = Some (Yield ex_chunk Done) /\
  fst (iteration ex_prompts ex_interrupted ex_state) = false /\
  conversation_history (self (snd (iteration ex_prompts ex_interrupted ex_state)))
  = [turn USER (py "hello")].
Proof.
  assert (Hturn : starts_turn (Str.strip (py "hello"))).
  { split; [reflexivity|]. split; [reflexivity|]. split; [reflexivity|].
    vm_compute. discriminate. }
  destruct (X16_leaving_the_loop ex_prompts (ex_step (py " Bye ")) ex_chatting)
    as (Hquit & _).
  destruct (X16_leaving_the_loop ex_prompts ex_interrupted ex_state)
    as (_ & Hint & _).
  destruct (Hint (py "hello") 1%nat (Yield ex_chunk Done) eq_refl Hturn eq_refl eq_refl)
    as (Hleft & Hself & _).
  split; [reflexivity|].
  split; [apply Hquit; right; right; exists (py " Bye "); split; reflexivity|].
  split; [exact Hturn|]. split; [reflexivity|]. split; [exact Hleft|].
  rewrite Hself. reflexivity.
Defined.

Lemma X17_witness :
  typed (ex_step (py "PROMPT: list ")) = Line (py "PROMPT: list ") /\
  Str.startswith (Str.lower (Str.strip (py "PROMPT: list "))) PROMPT_PREFIX = true /\
  Str.strip (drop 7 (Str.strip (py "PROMPT: list "))) = LIST /\
  self (snd (iteration (ex_prompts ++ [(LIST, py "A persona called list.")])
               (ex_step (py "PROMPT: list ")) ex_chatting))
  = self ex_chatting.
Proof.
  split; [reflexivity|]. split; [reflexivity|]. split; [reflexivity|].
  apply (X17_lines_without_effect (ex_prompts ++ [(LIST, py "A persona called list.")])
           (ex_step (py "PROMPT: list ")) (py "PROMPT: list ") ex_chatting);
    [reflexivity|].
  right. split; [reflexivity | left; reflexivity].
Defined.

Lemma X19_witness :
  bound ex_prompts (self ex_chatting) /\
  log_file_name (py "default") <> LAST_PROMPT /\
  exists suffix,
    default [] (files (world (snd (run ex_prompts ex_steps ex_chatting)))
                  !! log_file_name (py "default"))
    = default [] (files (world ex_chatting) !! log_file_name (py "default")) ++ suffix.
Proof.
  assert (Hb : bound ex_prompts (self ex_chatting)).
  { split; [reflexivity|]. exists (py "You are a helpful assistant."). split; reflexivity. }
  assert (Hne : log_file_name (py "default") <> LAST_PROMPT)
    by (vm_compute; discriminate).
  split; [exact Hb|]. split; [exact Hne|].
  apply (X19_run_only_appends ex_prompts ex_steps ex_chatting Hb _ Hne).
Defined.
